(** * The mmt4d micro-kernel entry point (runtime/src/iree/builtins/ukernel/mmt4d.c)

    A shallow embedding of the parameter validation, the tile-function
    selection, the outer loop nest and the status messages of
    [iree_ukernel_mmt4d], together with the properties established about
    them.

    Conventions.
    - C integers are values of [Z]; every narrowing conversion and every
      arithmetic result that is stored in a fixed-width variable is wrapped
      explicitly ([to_int16], [to_int32], [to_ssize]).
    - The target is LP64: [iree_ukernel_ssize_t] and pointers are 64 bits
      wide (the source comments on [K] being an int64).  A pointer is its
      address, and pointer arithmetic wraps modulo [2^64].
    - The header mmt4d.h and the two provider translation units are not part
      of the sources at hand.  What they declare is gathered in two
      interfaces, [Mmt4dHeader] and [TileProviders], over which the code and
      the general theorems are parametric; where a closed statement needs
      concrete values, an instance modelled from the specification is used
      and says so. *)

From Stdlib Require Import ZArith List String Bool Lia.
From Stdlib Require Import Ascii DecimalString SpecFloat.
Import ListNotations.
Local Open Scope Z_scope.

(** ** Fixed-width integers *)

Module MachineInt.

(** Two's-complement reading of the low [w] bits of [x]. *)
Definition wrap_signed (w x : Z) : Z :=
  (x + 2 ^ (w - 1)) mod 2 ^ w - 2 ^ (w - 1).

(** Unsigned reading of the low [w] bits of [x]. *)
Definition wrap_unsigned (w x : Z) : Z := x mod 2 ^ w.

Definition to_int16 : Z -> Z := wrap_signed 16.
Definition to_int32 : Z -> Z := wrap_signed 32.
Definition to_ssize : Z -> Z := wrap_signed 64.

Definition INT32_MAX : Z := 2 ^ 31 - 1.
Definition INT32_MIN : Z := - 2 ^ 31.

Definition fits_int32 (x : Z) : Prop := INT32_MIN <= x <= INT32_MAX.

(** Byte addresses. *)
Definition ptr : Type := Z.

Definition valid_ptr (p : ptr) : Prop := 0 <= p < 2 ^ 64.

Definition ptr_add (p : ptr) (offset : Z) : ptr :=
  wrap_unsigned 64 (p + offset).

End MachineInt.
Import MachineInt.

(** ** Data model *)

(** The operand/accumulator type tuples.  Only two enumerators are named by
    the [switch] in the validator; [iree_ukernel_mmt4d_type_other] stands for
    every other value a caller may store in the field. *)
Inductive iree_ukernel_mmt4d_type_t : Type :=
| iree_ukernel_mmt4d_type_f32f32f32
| iree_ukernel_mmt4d_type_i8i8i32
| iree_ukernel_mmt4d_type_other (raw : Z).

Inductive iree_ukernel_mmt4d_status_t : Type :=
| iree_ukernel_mmt4d_status_ok
| iree_ukernel_mmt4d_status_bad_flags
| iree_ukernel_mmt4d_status_bad_type
| iree_ukernel_mmt4d_status_unsupported_huge_or_negative_dimension
| iree_ukernel_mmt4d_status_unsupported_generic_tile_size.

(** [iree_ukernel_mmt4d_params_t], with the fields the entry point reads. *)
Record iree_ukernel_mmt4d_params_t : Type := mk_params {
  type : iree_ukernel_mmt4d_type_t;
  flags : Z;
  lhs_buffer : ptr;
  rhs_buffer : ptr;
  out_buffer : ptr;
  lhs_stride : Z;
  rhs_stride : Z;
  out_stride : Z;
  M : Z;
  N : Z;
  K : Z;
  M0 : Z;
  N0 : Z;
  K0 : Z
}.

(** What mmt4d.h declares and the entry point uses: the accumulate flag bit,
    the per-type element sizes (as shifts) and the numbering of the status
    enumerators.  The header is not among the sources, so its content is an
    interface. *)
Class Mmt4dHeader : Type := {
  IREE_VMVX_MATMUL_FLAG_ACCUMULATE : Z;
  iree_ukernel_mmt4d_lhs_elem_size_log2 : iree_ukernel_mmt4d_type_t -> Z;
  iree_ukernel_mmt4d_rhs_elem_size_log2 : iree_ukernel_mmt4d_type_t -> Z;
  iree_ukernel_mmt4d_out_elem_size_log2 : iree_ukernel_mmt4d_type_t -> Z;
  status_code : iree_ukernel_mmt4d_status_t -> Z
}.

(** ** Parameter validation *)

(** [#define OUTSIDE_UINT_RANGE(value, bits) (((value) < 0) || ((value) >> (bits)))] *)
Definition OUTSIDE_UINT_RANGE (value bits : Z) : bool :=
  (value <? 0) || negb (Z.shiftr value bits =? 0).

Definition iree_ukernel_mmt4d_validate {hdr : Mmt4dHeader}
    (params : iree_ukernel_mmt4d_params_t) : iree_ukernel_mmt4d_status_t :=
  if negb (Z.land (flags params)
                  (Z.lnot IREE_VMVX_MATMUL_FLAG_ACCUMULATE) =? 0)
  then iree_ukernel_mmt4d_status_bad_flags
  else
    match type params with
    | iree_ukernel_mmt4d_type_f32f32f32
    | iree_ukernel_mmt4d_type_i8i8i32 =>
        if OUTSIDE_UINT_RANGE (M params) 31
           || OUTSIDE_UINT_RANGE (M params) 31
           || OUTSIDE_UINT_RANGE (K params) 31
           || OUTSIDE_UINT_RANGE (M0 params) 15
           || OUTSIDE_UINT_RANGE (N0 params) 15
           || OUTSIDE_UINT_RANGE (K0 params) 15
        then iree_ukernel_mmt4d_status_unsupported_huge_or_negative_dimension
        else iree_ukernel_mmt4d_status_ok
    | iree_ukernel_mmt4d_type_other _ =>
        iree_ukernel_mmt4d_status_bad_type
    end.

(** ** Tile functions, the machine state and the provider interface *)

Section Engine.

(** Contents of the caller's buffers; the entry point never inspects it. *)
Context {memory : Type}.

(** [iree_ukernel_mmt4d_tile_func_t] is a function pointer: [None] is the
    null pointer, [Some f] points at code with behaviour [f]. *)
Definition tile_code : Type :=
  ptr -> ptr -> ptr -> Z -> Z -> iree_ukernel_mmt4d_params_t ->
  memory -> memory.

Definition iree_ukernel_mmt4d_tile_func_t : Type := option tile_code.

(** One invocation of a tile function, with its six arguments. *)
Record tile_call : Type := mk_tile_call {
  call_out_tile : ptr;
  call_lhs_panel : ptr;
  call_rhs_panel : ptr;
  call_K : Z;
  call_flags : Z;
  call_params : iree_ukernel_mmt4d_params_t
}.

(** The state one call of the entry point threads through: the buffers and
    the tile-function invocations made so far, oldest first. *)
Record machine : Type := mk_machine {
  mem : memory;
  calls : list tile_call
}.

(** Calling through a function pointer; a null pointer faults ([None]). *)
Definition call_tile_func (tile_func : iree_ukernel_mmt4d_tile_func_t)
    (c : tile_call) (st : machine) : option machine :=
  match tile_func with
  | None => None
  | Some f =>
      Some {| mem := f (call_out_tile c) (call_lhs_panel c) (call_rhs_panel c)
                       (call_K c) (call_flags c) (call_params c) (mem st);
              calls := calls st ++ [c] |}
  end.

Definition bind {A B : Type} (m : option A) (k : A -> option B) : option B :=
  match m with
  | Some a => k a
  | None => None
  end.

Local Notation "x <- m ;; k" := (bind m (fun x => k))
  (at level 61, m at next level, right associativity).

(** The two providers the resolver queries.  Both live in translation units
    that are not among the sources.  The generic one reports a status and the
    pointer it stored through [out_tile_func] ([None] if it stored nothing). *)
Class TileProviders : Type := {
  iree_ukernel_mmt4d_select_tile_func_arch :
    iree_ukernel_mmt4d_params_t -> iree_ukernel_mmt4d_tile_func_t;
  iree_ukernel_mmt4d_select_tile_func_generic :
    iree_ukernel_mmt4d_params_t ->
    iree_ukernel_mmt4d_status_t * iree_ukernel_mmt4d_tile_func_t
}.

Inductive provider : Type := provider_arch | provider_generic.

(** Result of the resolver: the returned status, the content of
    [*out_tile_func], and the providers that were called, in call order. *)
Record selection : Type := mk_selection {
  sel_status : iree_ukernel_mmt4d_status_t;
  sel_tile_func : iree_ukernel_mmt4d_tile_func_t;
  sel_consulted : list provider
}.

Context {hdr : Mmt4dHeader} {providers : TileProviders}.

(** ** Tile-function selection *)

Definition iree_ukernel_mmt4d_select_tile_func
    (params : iree_ukernel_mmt4d_params_t) : selection :=
  match iree_ukernel_mmt4d_select_tile_func_arch params with
  | Some arch_tile_func =>
      {| sel_status := iree_ukernel_mmt4d_status_ok;
         sel_tile_func := Some arch_tile_func;
         sel_consulted := [provider_arch] |}
  | None =>
      let '(status, generic_tile_func) :=
        iree_ukernel_mmt4d_select_tile_func_generic params in
      {| sel_status := status;
         sel_tile_func := generic_tile_func;
         sel_consulted := [provider_arch; provider_generic] |}
  end.

(** ** The loop nest *)

(** [int32_t out_tile_size = (M0 * N0) << out_elem_size_log2], before it is
    stored: the two [int16_t] factors are promoted to [int], whose range holds
    every product of two of them.  The shift is the mathematical one; C
    leaves it undefined when the count is not a valid shift count or the
    result is not representable, which is what [out_tile_size] then wraps. *)
Definition out_tile_size_exact (params : iree_ukernel_mmt4d_params_t) : Z :=
  Z.shiftl (to_int16 (M0 params) * to_int16 (N0 params))
           (to_int16 (iree_ukernel_mmt4d_out_elem_size_log2 (type params))).

(** The value the [int32_t] variable holds. *)
Definition out_tile_size (params : iree_ukernel_mmt4d_params_t) : Z :=
  to_int32 (out_tile_size_exact params).

Definition lhs_panel_stride (params : iree_ukernel_mmt4d_params_t) : Z :=
  to_ssize (Z.shiftl (lhs_stride params)
     (to_int16 (iree_ukernel_mmt4d_lhs_elem_size_log2 (type params)))).

Definition rhs_panel_stride (params : iree_ukernel_mmt4d_params_t) : Z :=
  to_ssize (Z.shiftl (rhs_stride params)
     (to_int16 (iree_ukernel_mmt4d_rhs_elem_size_log2 (type params)))).

Definition out_stride_bytes (params : iree_ukernel_mmt4d_params_t) : Z :=
  to_ssize (Z.shiftl (out_stride params)
     (to_int16 (iree_ukernel_mmt4d_out_elem_size_log2 (type params)))).

(** [for (int32_t j = 0; j < N; ++j)], with [n] iterations still to run.
    The counter stays below [N <= INT32_MAX], so it is never read except by
    the loop test and the loop is the [n]-fold repetition of its body. *)
Fixpoint mmt4d_inner_loop (params : iree_ukernel_mmt4d_params_t)
    (tile_func : iree_ukernel_mmt4d_tile_func_t) (lhs_panel : ptr)
    (n : nat) (out_tile rhs_panel : ptr) (st : machine) : option machine :=
  match n with
  | O => Some st
  | S n' =>
      st' <- call_tile_func tile_func
               {| call_out_tile := out_tile;
                  call_lhs_panel := lhs_panel;
                  call_rhs_panel := rhs_panel;
                  call_K := to_int32 (K params);
                  call_flags := flags params;
                  call_params := params |} st ;;
      mmt4d_inner_loop params tile_func lhs_panel n'
        (ptr_add out_tile (out_tile_size params))
        (ptr_add rhs_panel (rhs_panel_stride params)) st'
  end.

(** [for (int32_t i = 0; i < M; ++i)], with [m] iterations still to run. *)
Fixpoint mmt4d_outer_loop (params : iree_ukernel_mmt4d_params_t)
    (tile_func : iree_ukernel_mmt4d_tile_func_t)
    (m : nat) (out_tile_row lhs_panel : ptr) (st : machine) : option machine :=
  match m with
  | O => Some st
  | S m' =>
      st' <- mmt4d_inner_loop params tile_func lhs_panel
               (Z.to_nat (to_int32 (N params)))
               out_tile_row (rhs_buffer params) st ;;
      mmt4d_outer_loop params tile_func m'
        (ptr_add out_tile_row (out_stride_bytes params))
        (ptr_add lhs_panel (lhs_panel_stride params)) st'
  end.

Definition iree_ukernel_mmt4d_using_tile_func
    (params : iree_ukernel_mmt4d_params_t)
    (tile_func : iree_ukernel_mmt4d_tile_func_t)
    (st : machine) : option machine :=
  mmt4d_outer_loop params tile_func
    (Z.to_nat (to_int32 (M params)))
    (out_buffer params) (lhs_buffer params) st.

(** ** The entry point *)

(** Modelled from the spec: the macro [IREE_UKERNEL_MMT4D_RETURN_IF_ERROR]
    is declared in mmt4d.h, which is not among the sources.  By the spec's
    state machine a failed validation or resolution ends the invocation with
    that status, and an [ok] lets it continue: [on_error] is the return from
    the enclosing function, [continue] the rest of its body. *)
Definition IREE_UKERNEL_MMT4D_RETURN_IF_ERROR {R : Type}
    (status : iree_ukernel_mmt4d_status_t)
    (on_error : iree_ukernel_mmt4d_status_t -> R) (continue : R) : R :=
  match status with
  | iree_ukernel_mmt4d_status_ok => continue
  | error => on_error error
  end.

Definition iree_ukernel_mmt4d (params : iree_ukernel_mmt4d_params_t)
    (st : machine) : option (iree_ukernel_mmt4d_status_t * machine) :=
  let return_status status := Some (status, st) in
  IREE_UKERNEL_MMT4D_RETURN_IF_ERROR
    (iree_ukernel_mmt4d_validate params) return_status
    (let sel := iree_ukernel_mmt4d_select_tile_func params in
     IREE_UKERNEL_MMT4D_RETURN_IF_ERROR (sel_status sel) return_status
       (st' <- iree_ukernel_mmt4d_using_tile_func params
                 (sel_tile_func sel) st ;;
        Some (iree_ukernel_mmt4d_status_ok, st'))).

End Engine.

Arguments tile_code : clear implicits.
Arguments iree_ukernel_mmt4d_tile_func_t : clear implicits.
Arguments machine : clear implicits.
Arguments selection : clear implicits.
Arguments TileProviders : clear implicits.

(** ** Status messages *)

Definition iree_ukernel_mmt4d_status_message {hdr : Mmt4dHeader}
    (status : Z) : string :=
  if status =? status_code iree_ukernel_mmt4d_status_bad_flags
  then "bad mmt4d flags"
  else if status =? status_code iree_ukernel_mmt4d_status_bad_type
  then "bad mmt4d type enum"
  else if status =? status_code
            iree_ukernel_mmt4d_status_unsupported_huge_or_negative_dimension
  then "unsupported huge or negative size in mmt4d"
  else if status =? status_code
            iree_ukernel_mmt4d_status_unsupported_generic_tile_size
  then "tile size too large for the generic tile implementation"
  else "unknown".

(** The [case] labels of the message [switch]; C requires the labels of one
    [switch] to be pairwise distinct. *)
Definition case_labels {hdr : Mmt4dHeader} : list Z :=
  map status_code
    [iree_ukernel_mmt4d_status_bad_flags;
     iree_ukernel_mmt4d_status_bad_type;
     iree_ukernel_mmt4d_status_unsupported_huge_or_negative_dimension;
     iree_ukernel_mmt4d_status_unsupported_generic_tile_size].

(** ** Specification-side definitions *)

(** [flags] sets no bit outside [allowed]. *)
Definition flags_within (flags allowed : Z) : Prop :=
  forall i, 0 <= i -> Z.testbit flags i = true -> Z.testbit allowed i = true.

Definition supported_type (t : iree_ukernel_mmt4d_type_t) : Prop :=
  t = iree_ukernel_mmt4d_type_f32f32f32 \/ t = iree_ukernel_mmt4d_type_i8i8i32.

Definition in_uint_range (value bits : Z) : Prop := 0 <= value < 2 ^ bits.

(** The dimension ranges of the descriptor's documented invariant. *)
Definition dimensions_in_range (p : iree_ukernel_mmt4d_params_t) : Prop :=
  in_uint_range (M p) 31 /\ in_uint_range (N p) 31 /\ in_uint_range (K p) 31 /\
  in_uint_range (M0 p) 15 /\ in_uint_range (N0 p) 15 /\ in_uint_range (K0 p) 15.

(** The dimensions the validator does test. *)
Definition tested_dimensions_in_range (p : iree_ukernel_mmt4d_params_t) : Prop :=
  in_uint_range (M p) 31 /\ in_uint_range (K p) 31 /\
  in_uint_range (M0 p) 15 /\ in_uint_range (N0 p) 15 /\ in_uint_range (K0 p) 15.

(** What the loop nest relies on beyond the documented dimension ranges:
    buffer addresses are 64-bit addresses, the element-size shifts are valid
    shift counts for the type they shift (64 bits for the strides, 32 bits
    for the tile footprint), and the byte footprint of one output tile is
    representable in the [int32_t] variable that holds it. *)
Definition loop_nest_preconditions {hdr : Mmt4dHeader}
    (p : iree_ukernel_mmt4d_params_t) : Prop :=
  dimensions_in_range p /\
  valid_ptr (lhs_buffer p) /\ valid_ptr (rhs_buffer p) /\
  valid_ptr (out_buffer p) /\
  0 <= iree_ukernel_mmt4d_lhs_elem_size_log2 (type p) < 64 /\
  0 <= iree_ukernel_mmt4d_rhs_elem_size_log2 (type p) < 64 /\
  0 <= iree_ukernel_mmt4d_out_elem_size_log2 (type p) < 32 /\
  fits_int32 (M0 p * N0 p
              * 2 ^ iree_ukernel_mmt4d_out_elem_size_log2 (type p)).

Section TileGrid.

Context {memory : Type} {hdr : Mmt4dHeader}.

(** The invocation for tile [(i, j)] in closed form: byte offsets are
    products of the tile indices with the element-size-scaled strides. *)
Definition tile_call_at (p : iree_ukernel_mmt4d_params_t) (i j : Z)
    : tile_call :=
  let out_elem_size := 2 ^ iree_ukernel_mmt4d_out_elem_size_log2 (type p) in
  let lhs_elem_size := 2 ^ iree_ukernel_mmt4d_lhs_elem_size_log2 (type p) in
  let rhs_elem_size := 2 ^ iree_ukernel_mmt4d_rhs_elem_size_log2 (type p) in
  {| call_out_tile :=
       ptr_add (out_buffer p)
         (i * (out_stride p * out_elem_size)
          + j * (M0 p * N0 p * out_elem_size));
     call_lhs_panel := ptr_add (lhs_buffer p) (i * (lhs_stride p * lhs_elem_size));
     call_rhs_panel := ptr_add (rhs_buffer p) (j * (rhs_stride p * rhs_elem_size));
     call_K := K p;
     call_flags := flags p;
     call_params := p |}.

(** Row [i] of the grid, columns [j0, j0 + n). *)
Definition tile_row (p : iree_ukernel_mmt4d_params_t) (i : Z)
    (j0 : nat) (n : nat) : list tile_call :=
  map (fun j => tile_call_at p i (Z.of_nat j)) (seq j0 n).

(** All tiles [(i, j)], [0 <= i < M], [0 <= j < N], in row-major order. *)
Definition tile_grid (p : iree_ukernel_mmt4d_params_t) : list tile_call :=
  flat_map (fun i => tile_row p (Z.of_nat i) 0 (Z.to_nat (N p)))
           (seq 0 (Z.to_nat (M p))).

(** The effect on the buffers of a sequence of invocations of [f]. *)
Definition run_calls (f : tile_code memory) (cs : list tile_call)
    (m : memory) : memory :=
  fold_left (fun m c => f (call_out_tile c) (call_lhs_panel c)
                          (call_rhs_panel c) (call_K c) (call_flags c)
                          (call_params c) m) cs m.

(** The state after the invocations [cs] of [f], made in order. *)
Definition after_calls (f : tile_code memory) (cs : list tile_call)
    (st : machine memory) : machine memory :=
  {| mem := run_calls f cs (mem st); calls := calls st ++ cs |}.

End TileGrid.

(** Modelled from the spec: mmt4d.h is not among the sources.  The spec
    defines a single flag bit (ACCUMULATE), the type tuples
    float32 x float32 -> float32 and int8 x int8 -> int32 (element sizes 4, 4, 4
    and 1, 1, 4 bytes, as shifts), and lists the statuses in the order
    numbered here. *)
Definition spec_header : Mmt4dHeader := {|
  IREE_VMVX_MATMUL_FLAG_ACCUMULATE := 1;
  iree_ukernel_mmt4d_lhs_elem_size_log2 := fun t =>
    match t with iree_ukernel_mmt4d_type_f32f32f32 => 2 | _ => 0 end;
  iree_ukernel_mmt4d_rhs_elem_size_log2 := fun t =>
    match t with iree_ukernel_mmt4d_type_f32f32f32 => 2 | _ => 0 end;
  iree_ukernel_mmt4d_out_elem_size_log2 := fun t =>
    match t with iree_ukernel_mmt4d_type_other _ => 0 | _ => 2 end;
  status_code := fun s =>
    match s with
    | iree_ukernel_mmt4d_status_ok => 0
    | iree_ukernel_mmt4d_status_bad_flags => 1
    | iree_ukernel_mmt4d_status_bad_type => 2
    | iree_ukernel_mmt4d_status_unsupported_huge_or_negative_dimension => 3
    | iree_ukernel_mmt4d_status_unsupported_generic_tile_size => 4
    end
|}.

(** Modelled from the spec: the generic fallback provider
    (mmt4d_select_tile_generic) is not among the sources.  By the spec it
    produces a tile function for any tile shape, except that it refuses with
    [unsupported_generic_tile_size] when the tile exceeds an internal
    working-buffer budget; no other failure is defined.  The tile is measured
    by the byte footprint of the output tile. *)
Definition select_tile_func_generic_spec {memory : Type} {hdr : Mmt4dHeader}
    (budget : Z)
    (generic_tile : iree_ukernel_mmt4d_type_t -> tile_code memory)
    (params : iree_ukernel_mmt4d_params_t)
    : iree_ukernel_mmt4d_status_t * iree_ukernel_mmt4d_tile_func_t memory :=
  if budget <? Z.shiftl (M0 params * N0 params)
                 (iree_ukernel_mmt4d_out_elem_size_log2 (type params))
  then (iree_ukernel_mmt4d_status_unsupported_generic_tile_size, None)
  else (iree_ukernel_mmt4d_status_ok, Some (generic_tile (type params))).

(** Modelled from the spec: the architecture-specific provider set is not
    among the sources either.  This is the provider pair of a target without
    architecture-specific kernels: the architecture query finds nothing and
    the generic fallback decides. *)
Definition generic_only_providers {memory : Type} {hdr : Mmt4dHeader}
    (budget : Z)
    (generic_tile : iree_ukernel_mmt4d_type_t -> tile_code memory)
    : TileProviders memory := {|
  iree_ukernel_mmt4d_select_tile_func_arch := fun _ => None;
  iree_ukernel_mmt4d_select_tile_func_generic :=
    select_tile_func_generic_spec budget generic_tile
|}.

(** A tile function that leaves the buffers alone, over a one-point memory. *)
Definition idle_tile : tile_code unit := fun _ _ _ _ _ _ m => m.

Definition idle_machine : machine unit := {| mem := tt; calls := [] |}.

(** Sample descriptors. *)

Definition sample_params : iree_ukernel_mmt4d_params_t :=
  {| type := iree_ukernel_mmt4d_type_f32f32f32; flags := 0;
     lhs_buffer := 4096; rhs_buffer := 8192; out_buffer := 12288;
     lhs_stride := 12; rhs_stride := 12; out_stride := 12;
     M := 2; N := 3; K := 3; M0 := 2; N0 := 2; K0 := 2 |}.

(** Every field but [N] is within the documented ranges. *)
Definition negative_N_params : iree_ukernel_mmt4d_params_t :=
  {| type := iree_ukernel_mmt4d_type_f32f32f32; flags := 0;
     lhs_buffer := 4096; rhs_buffer := 8192; out_buffer := 12288;
     lhs_stride := 1; rhs_stride := 1; out_stride := 1;
     M := 1; N := -1; K := 1; M0 := 1; N0 := 1; K0 := 1 |}.

(** The largest tile the documented ranges admit, two tiles in a row. *)
Definition widest_tile_params : iree_ukernel_mmt4d_params_t :=
  {| type := iree_ukernel_mmt4d_type_f32f32f32; flags := 0;
     lhs_buffer := 2 ^ 33; rhs_buffer := 2 ^ 34; out_buffer := 2 ^ 40;
     lhs_stride := 32767; rhs_stride := 32767;
     out_stride := 2 * 32767 * 32767;
     M := 1; N := 2; K := 1; M0 := 32767; N0 := 32767; K0 := 1 |}.

(** A 64 x 64 tile of 4-byte elements: 16384 bytes of output per tile. *)
Definition tile_64x64_params : iree_ukernel_mmt4d_params_t :=
  {| type := iree_ukernel_mmt4d_type_f32f32f32; flags := 0;
     lhs_buffer := 4096; rhs_buffer := 8192; out_buffer := 12288;
     lhs_stride := 64; rhs_stride := 64; out_stride := 4096;
     M := 1; N := 1; K := 1; M0 := 64; N0 := 64; K0 := 1 |}.

(** [sample_params] with strides no buffer could have. *)
Definition wild_stride_params : iree_ukernel_mmt4d_params_t :=
  {| type := iree_ukernel_mmt4d_type_f32f32f32; flags := 0;
     lhs_buffer := 64; rhs_buffer := 128; out_buffer := 192;
     lhs_stride := - 2 ^ 63; rhs_stride := 2 ^ 63 - 1; out_stride := -1;
     M := 2; N := 3; K := 3; M0 := 2; N0 := 2; K0 := 2 |}.

(** Three rows of tiles, each of them empty. *)
Definition empty_row_params : iree_ukernel_mmt4d_params_t :=
  {| type := iree_ukernel_mmt4d_type_i8i8i32; flags := 1;
     lhs_buffer := 4096; rhs_buffer := 8192; out_buffer := 12288;
     lhs_stride := 16; rhs_stride := 16; out_stride := 0;
     M := 3; N := 0; K := 4; M0 := 8; N0 := 8; K0 := 2 |}.

(** Undefined flag bits, an unknown type and a negative dimension at once. *)
Definition all_wrong_params : iree_ukernel_mmt4d_params_t :=
  {| type := iree_ukernel_mmt4d_type_other 99; flags := 6;
     lhs_buffer := 0; rhs_buffer := 0; out_buffer := 0;
     lhs_stride := 0; rhs_stride := 0; out_stride := 0;
     M := -1; N := 1; K := 1; M0 := 1; N0 := 1; K0 := 1 |}.

(** ** The tile grid in machine quantities *)

Section MachineGrid.

Context {memory : Type} {hdr : Mmt4dHeader}.

(** The invocation for tile [(i, j)] as the loop nest computes it for any
    descriptor: the offsets are multiples of the values the local variables
    [out_stride], [out_tile_size], [lhs_panel_stride] and [rhs_panel_stride]
    hold after narrowing, and [K] is the narrowed [K]. *)
Definition machine_call_at (p : iree_ukernel_mmt4d_params_t) (i j : Z)
    : tile_call :=
  {| call_out_tile :=
       ptr_add (out_buffer p) (i * out_stride_bytes p + j * out_tile_size p);
     call_lhs_panel := ptr_add (lhs_buffer p) (i * lhs_panel_stride p);
     call_rhs_panel := ptr_add (rhs_buffer p) (j * rhs_panel_stride p);
     call_K := to_int32 (K p);
     call_flags := flags p;
     call_params := p |}.

Definition machine_row (p : iree_ukernel_mmt4d_params_t) (i : Z)
    (j0 : nat) (n : nat) : list tile_call :=
  map (fun j => machine_call_at p i (Z.of_nat j)) (seq j0 n).

(** The grid the loops walk: the bounds are the [int32_t] locals [M], [N]. *)
Definition machine_grid (p : iree_ukernel_mmt4d_params_t) : list tile_call :=
  flat_map (fun i => machine_row p (Z.of_nat i) 0
                       (Z.to_nat (to_int32 (N p))))
           (seq 0 (Z.to_nat (to_int32 (M p)))).

(** All invocations pass the same reduction length, flags and descriptor. *)
Definition uniform_arguments (p : iree_ukernel_mmt4d_params_t)
    (c : tile_call) : Prop :=
  call_K c = to_int32 (K p) /\ call_flags c = flags p /\ call_params c = p.

End MachineGrid.

(** * Comparison of result lists (runtime/src/iree/tooling/comparison.cc)

    The file compares a list of expected variants with a list of actual
    ones and writes a report of the differences to a stream.  It is built on
    the runtime's VM, HAL and string-builder libraries, none of which is
    among the sources: their types and operations form the interfaces
    [VmTypes] and [IreeApi] below, and the code is parametric in them.
    - A string builder is the text it holds; an append first asks the host
      allocator for room ([builder_grow_status]) and leaves the builder
      alone when that fails.
    - A status is [ok], [out_of_range] or some other failure.  The macro
      [IREE_CHECK_OK] aborts the process on a failure: functions that use it
      return [None] for an aborted run.
    - The stream is the text written to it so far. *)

Module Comparison.

Definition newline : string := String "010"%char EmptyString.

(** [printf]'s [%d] and the [PRIi8] ... [PRIi64] conversions. *)
Definition format_decimal (z : Z) : string :=
  NilZero.string_of_int (Z.to_int z).

(** [operator<<] of a stream on an [iree_host_size_t]. *)
Definition format_size (n : nat) : string :=
  NilZero.string_of_uint (Nat.to_uint n).

Inductive iree_status_t : Type :=
| IREE_STATUS_OK
| IREE_STATUS_OUT_OF_RANGE
| IREE_STATUS_OTHER (code : Z).

Definition iree_ok_status : iree_status_t := IREE_STATUS_OK.

Definition iree_status_is_ok (status : iree_status_t) : bool :=
  match status with IREE_STATUS_OK => true | _ => false end.

Definition iree_status_is_out_of_range (status : iree_status_t) : bool :=
  match status with IREE_STATUS_OUT_OF_RANGE => true | _ => false end.

(** [IREE_CHECK_OK(expr)]: the value computed along with an [ok] status, or
    an abort. *)
Definition IREE_CHECK_OK {A : Type} (r : iree_status_t * A) : option A :=
  if iree_status_is_ok (fst r) then Some (snd r) else None.

(** The value types the [switch] statements name; [IREE_VM_VALUE_TYPE_other]
    stands for every other value of the enumeration (the "none" type
    included). *)
Inductive iree_vm_value_type_t : Type :=
| IREE_VM_VALUE_TYPE_I8
| IREE_VM_VALUE_TYPE_I16
| IREE_VM_VALUE_TYPE_I32
| IREE_VM_VALUE_TYPE_I64
| IREE_VM_VALUE_TYPE_F32
| IREE_VM_VALUE_TYPE_F64
| IREE_VM_VALUE_TYPE_other (raw : Z).

Definition value_type_eqb (a b : iree_vm_value_type_t) : bool :=
  match a, b with
  | IREE_VM_VALUE_TYPE_I8, IREE_VM_VALUE_TYPE_I8
  | IREE_VM_VALUE_TYPE_I16, IREE_VM_VALUE_TYPE_I16
  | IREE_VM_VALUE_TYPE_I32, IREE_VM_VALUE_TYPE_I32
  | IREE_VM_VALUE_TYPE_I64, IREE_VM_VALUE_TYPE_I64
  | IREE_VM_VALUE_TYPE_F32, IREE_VM_VALUE_TYPE_F32
  | IREE_VM_VALUE_TYPE_F64, IREE_VM_VALUE_TYPE_F64 => true
  | IREE_VM_VALUE_TYPE_other x, IREE_VM_VALUE_TYPE_other y => x =? y
  | _, _ => false
  end.

(** The opaque types of the VM and the HAL. *)
Class VmTypes : Type := {
  iree_vm_ref_type_t : Type;
  iree_vm_ref_t : Type;
  iree_hal_buffer_view_t : Type
}.

Record iree_vm_type_def_t {types : VmTypes} : Type := {
  value_type : iree_vm_value_type_t;
  ref_type : iree_vm_ref_type_t
}.

(** [iree_vm_variant_t].  The payload is a union in C; the code only reads
    it, so each member is modelled by the value a read of it yields.  The
    floating-point members are IEEE 754 values in canonical form. *)
Record iree_vm_variant_t {types : VmTypes} : Type := {
  type : iree_vm_type_def_t;
  i8 : Z;
  i16 : Z;
  i32 : Z;
  i64 : Z;
  f32 : spec_float;
  f64 : spec_float;
  ref : iree_vm_ref_t
}.

Inductive iree_hal_buffer_equality_t : Type :=
| IREE_HAL_BUFFER_EQUALITY_APPROXIMATE_ABSOLUTE.

(** The library operations the file calls.
    - [iree_hal_buffer_view_match_equal equality expected actual] yields the
      status, the text appended to the (empty) builder it is given, and the
      value stored in [did_match].
    - [iree_hal_buffer_view_format view max_element_count capacity has_buffer]
      yields the status, the value stored in [required_length], and the
      characters stored in the buffer when there is one.
    - [format_G] is [printf]'s [%G].
    - [builder_grow_status content n] is the status of making room for [n]
      more characters in a builder that holds [content].
    - [builder_gives_buffer] tells whether [append_inline] hands out a
      buffer (a builder that only measures does not).
    - [assertions_enabled] tells whether [IREE_ASSERT_EQ] is compiled in. *)
Class IreeApi {types : VmTypes} : Type := {
  iree_vm_variant_is_empty : iree_vm_variant_t -> bool;
  iree_vm_variant_is_value : iree_vm_variant_t -> bool;
  iree_vm_variant_is_ref : iree_vm_variant_t -> bool;
  iree_vm_ref_type_name : iree_vm_ref_type_t -> string;
  iree_hal_buffer_view_isa : iree_vm_ref_t -> bool;
  iree_hal_buffer_view_deref : iree_vm_ref_t -> iree_hal_buffer_view_t;
  iree_hal_buffer_view_match_equal :
    iree_hal_buffer_equality_t ->
    iree_hal_buffer_view_t -> iree_hal_buffer_view_t ->
    iree_status_t * string * bool;
  iree_hal_buffer_view_format :
    iree_hal_buffer_view_t -> nat -> nat -> bool ->
    iree_status_t * nat * string;
  format_G : spec_float -> string;
  builder_grow_status : string -> nat -> iree_status_t;
  builder_gives_buffer : bool;
  assertions_enabled : bool
}.

Section Code.

Context {types : VmTypes} {api : IreeApi}.

Local Notation "x <- m ;; k" := (bind m (fun x => k))
  (at level 61, m at next level, right associativity).

(** ** The string builder *)

Definition iree_string_builder_append_string (builder value : string)
    : iree_status_t * string :=
  let status := builder_grow_status builder (String.length value) in
  if iree_status_is_ok status
  then (status, (builder ++ value)%string)
  else (status, builder).

Definition iree_string_builder_append_cstring (builder value : string)
    : iree_status_t * string :=
  iree_string_builder_append_string builder value.

(** [iree_string_builder_append_format], applied to the expanded format. *)
Definition iree_string_builder_append_format (builder text : string)
    : iree_status_t * string :=
  iree_string_builder_append_string builder text.

(** [count] characters at the end of a builder that nothing has written
    yet. *)
Fixpoint unwritten (count : nat) : string :=
  match count with
  | O => EmptyString
  | S n => String "000"%char (unwritten n)
  end.

(** What a region of [count] characters holds after [text] was stored at its
    start. *)
Definition stored_in (count : nat) (text : string) : string :=
  substring 0 count (text ++ unwritten count)%string.

(** ** [iree_tooling_append_buffer_view_string] *)

Definition iree_tooling_append_buffer_view_string
    (buffer_view : iree_hal_buffer_view_t) (max_element_count : nat)
    (builder : string) : iree_status_t * string :=
  let '(status, required_length, _) :=
    iree_hal_buffer_view_format buffer_view max_element_count 0 false in
  if negb (iree_status_is_out_of_range status) then (status, builder)
  else
    let grow := builder_grow_status builder required_length in
    if negb (iree_status_is_ok grow) then (grow, builder)
    else if negb builder_gives_buffer
    then (iree_ok_status, (builder ++ unwritten required_length)%string)
    else
      let '(status, _, text) :=
        iree_hal_buffer_view_format buffer_view max_element_count
          (required_length + 1) true in
      (status, (builder ++ stored_in required_length text)%string).

(** ** [iree_vm_append_variant_type_string] *)

Definition iree_vm_append_variant_type_string
    (variant : iree_vm_variant_t) (builder : string)
    : iree_status_t * string :=
  if iree_vm_variant_is_empty variant then
    iree_string_builder_append_string builder "empty"
  else if iree_vm_variant_is_value variant then
    let type_name :=
      match value_type (type variant) with
      | IREE_VM_VALUE_TYPE_I8 => "i8"
      | IREE_VM_VALUE_TYPE_I16 => "i16"
      | IREE_VM_VALUE_TYPE_I32 => "i32"
      | IREE_VM_VALUE_TYPE_I64 => "i64"
      | IREE_VM_VALUE_TYPE_F32 => "f32"
      | IREE_VM_VALUE_TYPE_F64 => "f64"
      | IREE_VM_VALUE_TYPE_other _ => "?"
      end%string in
    iree_string_builder_append_cstring builder type_name
  else if iree_vm_variant_is_ref variant then
    iree_string_builder_append_string builder
      (iree_vm_ref_type_name (ref_type (type variant)))
  else
    iree_string_builder_append_string builder "unknown".

(** ** [iree_tooling_compare_values] *)

(** ["[FAILED] result[%d]: "], the start of every per-result report. *)
Definition failed_result (result_index : Z) : string :=
  ("[FAILED] result[" ++ format_decimal result_index ++ "]: ")%string.

(** ["[FAILED] result[%d]: T values differ\n  expected: E\n  actual: A\n"],
    the six format strings of the function with their conversions
    expanded. *)
Definition values_differ (result_index : Z) (type_name expected actual : string)
    : string :=
  (failed_result result_index ++ type_name ++ " values differ" ++ newline
   ++ "  expected: " ++ expected ++ newline
   ++ "  actual: " ++ actual ++ newline)%string.

Definition iree_tooling_compare_values (result_index : Z)
    (expected_variant actual_variant : iree_vm_variant_t) (builder : string)
    : option (bool * string) :=
  if assertions_enabled
     && negb (value_type_eqb (value_type (type expected_variant))
                             (value_type (type actual_variant)))
  then None
  else
    let report_failure text :=
      builder' <- IREE_CHECK_OK
                    (iree_string_builder_append_format builder text) ;;
      Some (false, builder') in
    match value_type (type expected_variant) with
    | IREE_VM_VALUE_TYPE_I8 =>
        if negb (i8 expected_variant =? i8 actual_variant)
        then report_failure
               (values_differ result_index "i8"
                  (format_decimal (i8 expected_variant))
                  (format_decimal (i8 actual_variant)))
        else Some (true, builder)
    | IREE_VM_VALUE_TYPE_I16 =>
        if negb (i16 expected_variant =? i16 actual_variant)
        then report_failure
               (values_differ result_index "i16"
                  (format_decimal (i16 expected_variant))
                  (format_decimal (i16 actual_variant)))
        else Some (true, builder)
    | IREE_VM_VALUE_TYPE_I32 =>
        if negb (i32 expected_variant =? i32 actual_variant)
        then report_failure
               (values_differ result_index "i32"
                  (format_decimal (i32 expected_variant))
                  (format_decimal (i32 actual_variant)))
        else Some (true, builder)
    | IREE_VM_VALUE_TYPE_I64 =>
        if negb (i64 expected_variant =? i64 actual_variant)
        then report_failure
               (values_differ result_index "i64"
                  (format_decimal (i64 expected_variant))
                  (format_decimal (i64 actual_variant)))
        else Some (true, builder)
    | IREE_VM_VALUE_TYPE_F32 =>
        if negb (SFeqb (f32 expected_variant) (f32 actual_variant))
        then report_failure
               (values_differ result_index "f32"
                  (format_G (f32 expected_variant))
                  (format_G (f32 actual_variant)))
        else Some (true, builder)
    | IREE_VM_VALUE_TYPE_F64 =>
        if negb (SFeqb (f64 expected_variant) (f64 actual_variant))
        then report_failure
               (values_differ result_index "f64"
                  (format_G (f64 expected_variant))
                  (format_G (f64 actual_variant)))
        else Some (true, builder)
    | IREE_VM_VALUE_TYPE_other _ =>
        report_failure
          (failed_result result_index
           ++ "unknown value type, cannot match" ++ newline)%string
    end.

(** ** [iree_tooling_compare_buffer_views] *)

Definition iree_tooling_compare_buffer_views (result_index : Z)
    (expected_view actual_view : iree_hal_buffer_view_t)
    (max_element_count : nat) (builder : string) : option (bool * string) :=
  matched <- IREE_CHECK_OK
               (let '(status, subbuilder, did_match) :=
                  iree_hal_buffer_view_match_equal
                    IREE_HAL_BUFFER_EQUALITY_APPROXIMATE_ABSOLUTE
                    expected_view actual_view in
                (status, (subbuilder, did_match))) ;;
  let '(subbuilder, did_match) := matched in
  if did_match then Some (true, builder)
  else
    builder <- IREE_CHECK_OK
                 (iree_string_builder_append_format builder
                    (failed_result result_index)) ;;
    builder <- IREE_CHECK_OK
                 (iree_string_builder_append_string builder subbuilder) ;;
    builder <- IREE_CHECK_OK
                 (iree_string_builder_append_string builder
                    (newline ++ "  expected:" ++ newline)%string) ;;
    builder <- IREE_CHECK_OK
                 (iree_tooling_append_buffer_view_string expected_view
                    max_element_count builder) ;;
    builder <- IREE_CHECK_OK
                 (iree_string_builder_append_string builder
                    (newline ++ "  actual:" ++ newline)%string) ;;
    builder <- IREE_CHECK_OK
                 (iree_tooling_append_buffer_view_string actual_view
                    max_element_count builder) ;;
    builder <- IREE_CHECK_OK
                 (iree_string_builder_append_string builder newline) ;;
    Some (false, builder).

(** ** [iree_tooling_compare_variants] *)

(** The tail of the function: the report of mismatching variant types. *)
Definition report_types_mismatch (result_index : Z)
    (expected_variant actual_variant : iree_vm_variant_t) (builder : string)
    : option (bool * string) :=
  builder <- IREE_CHECK_OK
               (iree_string_builder_append_format builder
                  (failed_result result_index)) ;;
  builder <- IREE_CHECK_OK
               (iree_string_builder_append_string builder
                  "variant types mismatch; expected ") ;;
  builder <- IREE_CHECK_OK
               (iree_vm_append_variant_type_string expected_variant builder) ;;
  builder <- IREE_CHECK_OK
               (iree_string_builder_append_string builder " but got ") ;;
  builder <- IREE_CHECK_OK
               (iree_vm_append_variant_type_string actual_variant builder) ;;
  builder <- IREE_CHECK_OK
               (iree_string_builder_append_string builder newline) ;;
  Some (false, builder).

Definition iree_tooling_compare_variants (result_index : Z)
    (expected_variant actual_variant : iree_vm_variant_t)
    (max_element_count : nat) (builder : string) : option (bool * string) :=
  if iree_vm_variant_is_empty expected_variant then
    Some (true, builder)
  else if iree_vm_variant_is_empty actual_variant
          && iree_vm_variant_is_empty expected_variant then
    Some (true, builder)
  else if iree_vm_variant_is_value actual_variant
          && iree_vm_variant_is_value expected_variant then
    if negb (value_type_eqb (value_type (type expected_variant))
                            (value_type (type actual_variant)))
    then iree_tooling_compare_values result_index expected_variant
           actual_variant builder
    else report_types_mismatch result_index expected_variant actual_variant
           builder
  else if iree_vm_variant_is_ref actual_variant
          && iree_vm_variant_is_ref expected_variant then
    if iree_hal_buffer_view_isa (ref actual_variant)
       && iree_hal_buffer_view_isa (ref expected_variant)
    then iree_tooling_compare_buffer_views result_index
           (iree_hal_buffer_view_deref (ref expected_variant))
           (iree_hal_buffer_view_deref (ref actual_variant))
           max_element_count builder
    else report_types_mismatch result_index expected_variant actual_variant
           builder
  else report_types_mismatch result_index expected_variant actual_variant
         builder.

(** ** [iree_tooling_compare_variants_to_stream] *)

Definition iree_tooling_compare_variants_to_stream (result_index : Z)
    (expected_variant actual_variant : iree_vm_variant_t)
    (max_element_count : nat) (os : string) : option (bool * string) :=
  result <- iree_tooling_compare_variants result_index expected_variant
              actual_variant max_element_count EmptyString ;;
  let '(did_match, builder) := result in
  Some (did_match, (os ++ builder)%string).

(** ** [iree_tooling_compare_variant_lists] *)

(** The loop [for (iree_host_size_t i = 0; i < size; ++i)] with [remaining]
    iterations to go.  [iree_vm_list_get_variant] fails, and
    [IREE_CHECK_OK] aborts, when the index is outside the list. *)
Fixpoint compare_variant_lists_loop
    (expected_list actual_list : list iree_vm_variant_t)
    (remaining : nat) (i : nat) (all_match : bool) (os : string)
    : option (bool * string) :=
  match remaining with
  | O => Some (all_match, os)
  | S remaining' =>
      expected_variant <- nth_error expected_list i ;;
      actual_variant <- nth_error actual_list i ;;
      result <- iree_tooling_compare_variants_to_stream
                  (to_int32 (Z.of_nat i)) expected_variant actual_variant
                  1024 os ;;
      let '(did_match, os) := result in
      compare_variant_lists_loop expected_list actual_list remaining' (S i)
        (if negb did_match then false else all_match) os
  end.

Definition iree_tooling_compare_variant_lists
    (expected_list actual_list : list iree_vm_variant_t) (os : string)
    : option (bool * string) :=
  if negb (List.length expected_list =? List.length actual_list)%nat then
    Some (false,
          (os ++ "[FAILED] expected "
              ++ format_size (List.length expected_list)
              ++ " list elements but "
              ++ format_size (List.length actual_list)
              ++ " provided" ++ newline)%string)
  else
    compare_variant_lists_loop expected_list actual_list
      (List.length expected_list) 0 true os.

End Code.

(** ** Shapes of the text a comparison appends *)

(** [b'] is [b] followed by a report that starts with [start]. *)
Definition reports (start b b' : string) : Prop :=
  exists rest, b' = (b ++ start ++ rest)%string.

(** [b'] is [b] followed by some text. *)
Definition grows (b b' : string) : Prop :=
  exists text, b' = (b ++ text)%string.

(** The outcome [(r, b')] of a comparison started on builder [b]: a match
    leaves the builder alone; a failure appends a report for that result. *)
Definition outcome_shape (result_index : Z) (b : string)
    (out : bool * string) : Prop :=
  (fst out = true -> snd out = b)
  /\ (fst out = false -> reports (failed_result result_index) b (snd out)).

(** Element [i] of the two lists compares as a match. *)
Definition element_matches {types : VmTypes} {api : IreeApi}
    (expected_list actual_list : list iree_vm_variant_t) (i : nat) : Prop :=
  exists expected_variant actual_variant,
    nth_error expected_list i = Some expected_variant /\
    nth_error actual_list i = Some actual_variant /\
    iree_tooling_compare_variants (to_int32 (Z.of_nat i))
      expected_variant actual_variant 1024 EmptyString
    = Some (true, EmptyString).

(** The payload members selected by the expected value type are equal. *)
Definition selected_payload_equal {types : VmTypes}
    (expected_variant actual_variant : iree_vm_variant_t) : Prop :=
  match value_type (type expected_variant) with
  | IREE_VM_VALUE_TYPE_I8 => i8 expected_variant = i8 actual_variant
  | IREE_VM_VALUE_TYPE_I16 => i16 expected_variant = i16 actual_variant
  | IREE_VM_VALUE_TYPE_I32 => i32 expected_variant = i32 actual_variant
  | IREE_VM_VALUE_TYPE_I64 => i64 expected_variant = i64 actual_variant
  | IREE_VM_VALUE_TYPE_F32 =>
      f32 expected_variant <> S754_nan /\ f32 actual_variant <> S754_nan /\
      SFcompare (f32 expected_variant) (f32 actual_variant) = Some Eq
  | IREE_VM_VALUE_TYPE_F64 =>
      f64 expected_variant <> S754_nan /\ f64 actual_variant <> S754_nan /\
      SFcompare (f64 expected_variant) (f64 actual_variant) = Some Eq
  | IREE_VM_VALUE_TYPE_other _ => False
  end.

(** The libraries never report a failure and assertions are compiled out:
    the allocator always makes room, the buffer-view matcher returns [ok],
    and the formatter either returns [ok] right away or asks for room
    ([out_of_range]) and returns [ok] once given the capacity it asked
    for. *)
Definition libraries_never_fail {types : VmTypes} {api : IreeApi} : Prop :=
  assertions_enabled = false
  /\ (forall content n, builder_grow_status content n = IREE_STATUS_OK)
  /\ (forall equality expected actual,
        fst (fst (iree_hal_buffer_view_match_equal equality expected actual))
        = IREE_STATUS_OK)
  /\ (forall view max_element_count,
        let probe :=
          iree_hal_buffer_view_format view max_element_count 0 false in
        fst (fst probe) = IREE_STATUS_OK
        \/ (fst (fst probe) = IREE_STATUS_OUT_OF_RANGE /\
            fst (fst (iree_hal_buffer_view_format view max_element_count
                        (snd (fst probe) + 1) true)) = IREE_STATUS_OK)).

End Comparison.

(** ** A small instance of the interfaces, for concrete runs *)

Module ComparisonSamples.

Import Comparison.

(** References carry the contents of the buffer view they point at, if they
    point at one; a ref type is its name; a buffer view is its contents. *)
Definition sample_types : VmTypes := {|
  iree_vm_ref_type_t := string;
  iree_vm_ref_t := option string;
  iree_hal_buffer_view_t := string
|}.

Definition sample_is_value (v : iree_vm_variant_t (types := sample_types))
    : bool :=
  negb (value_type_eqb (value_type (type v)) (IREE_VM_VALUE_TYPE_other 0)).

Definition sample_is_ref (v : iree_vm_variant_t (types := sample_types))
    : bool :=
  negb (String.eqb (ref_type (type v)) EmptyString).

(** A runtime whose allocator never fails, whose matcher compares contents
    and whose formatter prints them, built without assertions. *)
Definition sample_api : IreeApi (types := sample_types) := {|
  iree_vm_variant_is_empty := fun v =>
    negb (sample_is_value v) && negb (sample_is_ref v);
  iree_vm_variant_is_value := sample_is_value;
  iree_vm_variant_is_ref := sample_is_ref;
  iree_vm_ref_type_name := fun name => name;
  iree_hal_buffer_view_isa := fun r =>
    match r with Some _ => true | None => false end;
  iree_hal_buffer_view_deref := fun r =>
    match r with Some contents => contents | None => EmptyString end;
  iree_hal_buffer_view_match_equal := fun _ expected actual =>
    (IREE_STATUS_OK,
     if String.eqb expected actual then EmptyString
     else "contents differ"%string,
     String.eqb expected actual);
  iree_hal_buffer_view_format := fun view _ capacity has_buffer =>
    if (String.length view <? capacity)%nat
    then (IREE_STATUS_OK, String.length view,
          if has_buffer then view else EmptyString)
    else (IREE_STATUS_OUT_OF_RANGE, String.length view, EmptyString);
  format_G := fun x =>
    match x with S754_nan => "NAN"%string | _ => "0"%string end;
  builder_grow_status := fun _ _ => IREE_STATUS_OK;
  builder_gives_buffer := true;
  assertions_enabled := false
|}.

(** The same runtime built with assertions. *)
Definition sample_api_with_assertions : IreeApi (types := sample_types) := {|
  iree_vm_variant_is_empty := fun v =>
    negb (sample_is_value v) && negb (sample_is_ref v);
  iree_vm_variant_is_value := sample_is_value;
  iree_vm_variant_is_ref := sample_is_ref;
  iree_vm_ref_type_name := fun name => name;
  iree_hal_buffer_view_isa :=
    iree_hal_buffer_view_isa (IreeApi := sample_api);
  iree_hal_buffer_view_deref :=
    iree_hal_buffer_view_deref (IreeApi := sample_api);
  iree_hal_buffer_view_match_equal :=
    iree_hal_buffer_view_match_equal (IreeApi := sample_api);
  iree_hal_buffer_view_format :=
    iree_hal_buffer_view_format (IreeApi := sample_api);
  format_G := format_G (IreeApi := sample_api);
  builder_grow_status := fun _ _ => IREE_STATUS_OK;
  builder_gives_buffer := true;
  assertions_enabled := true
|}.

Definition sample_variant (t : iree_vm_value_type_t) (ref_name : string)
    (payload : Z) (r : option string)
    : iree_vm_variant_t (types := sample_types) :=
  @Build_iree_vm_variant_t sample_types
    (@Build_iree_vm_type_def_t sample_types t ref_name)
    payload payload payload payload S754_nan S754_nan r.

Definition empty_variant : iree_vm_variant_t (types := sample_types) :=
  sample_variant (IREE_VM_VALUE_TYPE_other 0) EmptyString 0 None.

Definition i32_variant (n : Z) : iree_vm_variant_t (types := sample_types) :=
  sample_variant IREE_VM_VALUE_TYPE_I32 EmptyString n None.

Definition i64_variant (n : Z) : iree_vm_variant_t (types := sample_types) :=
  sample_variant IREE_VM_VALUE_TYPE_I64 EmptyString n None.

Definition f32_nan_variant : iree_vm_variant_t (types := sample_types) :=
  sample_variant IREE_VM_VALUE_TYPE_F32 EmptyString 0 None.

Definition buffer_variant (contents : string)
    : iree_vm_variant_t (types := sample_types) :=
  sample_variant (IREE_VM_VALUE_TYPE_other 0) "hal.buffer_view" 0
    (Some contents).

End ComparisonSamples.

(** ** Properties of the fixed-width arithmetic *)

Lemma wrap_signed_small (w x : Z) :
  0 < w -> - 2 ^ (w - 1) <= x < 2 ^ (w - 1) -> wrap_signed w x = x.
Proof.
  intros Hw Hx. unfold wrap_signed.
  assert (Hp : 2 ^ w = 2 * 2 ^ (w - 1)).
  { replace w with (Z.succ (w - 1)) at 1 by lia. apply Z.pow_succ_r. lia. }
  rewrite Z.mod_small; lia.
Qed.

Lemma to_int16_small (x : Z) : - 2 ^ 15 <= x < 2 ^ 15 -> to_int16 x = x.
Proof. intros. apply (wrap_signed_small 16); simpl; lia. Qed.

Lemma to_int32_small (x : Z) : - 2 ^ 31 <= x < 2 ^ 31 -> to_int32 x = x.
Proof. intros. apply (wrap_signed_small 32); simpl; lia. Qed.

Lemma wrap_signed_congruent (w x : Z) :
  0 < w -> wrap_signed w x mod 2 ^ w = x mod 2 ^ w.
Proof.
  intros Hw. unfold wrap_signed.
  assert (0 < 2 ^ w) by (apply Z.pow_pos_nonneg; lia).
  rewrite Zminus_mod, Z.mod_mod by lia.
  rewrite <- Zminus_mod. f_equal. lia.
Qed.

Lemma ptr_add_congruent (p a b : Z) :
  a mod 2 ^ 64 = b mod 2 ^ 64 -> ptr_add p a = ptr_add p b.
Proof.
  intros E. unfold ptr_add, wrap_unsigned.
  rewrite (Z.add_mod p a), (Z.add_mod p b), E by lia. reflexivity.
Qed.

Lemma ptr_add_to_ssize (p x : Z) : ptr_add p (to_ssize x) = ptr_add p x.
Proof. apply ptr_add_congruent, (wrap_signed_congruent 64). lia. Qed.

Lemma ptr_add_assoc (p a b : Z) :
  ptr_add (ptr_add p a) b = ptr_add p (a + b).
Proof.
  unfold ptr_add, wrap_unsigned.
  rewrite Z.add_mod_idemp_l by lia. f_equal. lia.
Qed.

Lemma ptr_add_0 (p : ptr) : valid_ptr p -> ptr_add p 0 = p.
Proof.
  unfold valid_ptr, ptr_add, wrap_unsigned. intros.
  rewrite Z.add_0_r. apply Z.mod_small. lia.
Qed.

Lemma OUTSIDE_UINT_RANGE_false (value bits : Z) :
  0 <= bits ->
  OUTSIDE_UINT_RANGE value bits = false <-> in_uint_range value bits.
Proof.
  intros Hb. unfold OUTSIDE_UINT_RANGE, in_uint_range.
  assert (Hpos : 0 < 2 ^ bits) by (apply Z.pow_pos_nonneg; lia).
  rewrite orb_false_iff, negb_false_iff, Z.ltb_ge, Z.eqb_eq.
  rewrite Z.shiftr_div_pow2 by lia.
  split.
  - intros [Hv Hq]. split; [exact Hv|].
    apply Z.div_small_iff in Hq; lia.
  - intros Hv. split; [lia|]. apply Z.div_small. lia.
Qed.

Lemma OUTSIDE_UINT_RANGE_true (value bits : Z) :
  0 <= bits ->
  OUTSIDE_UINT_RANGE value bits = true <-> ~ in_uint_range value bits.
Proof.
  intros Hb. rewrite <- (OUTSIDE_UINT_RANGE_false value bits Hb).
  destruct (OUTSIDE_UINT_RANGE value bits); split; congruence.
Qed.

(** The validator's mask test is the subset test on flag bits. *)
Lemma flag_mask_test (flags allowed : Z) :
  Z.land flags (Z.lnot allowed) = 0 <-> flags_within flags allowed.
Proof.
  unfold flags_within. split.
  - intros E i Hi Hf.
    assert (Hb : Z.testbit (Z.land flags (Z.lnot allowed)) i = false)
      by (rewrite E; apply Z.bits_0).
    rewrite Z.land_spec, Z.lnot_spec, Hf in Hb by lia.
    simpl in Hb. now apply negb_false_iff in Hb.
  - intros Hsub. apply Z.bits_inj'. intros i Hi.
    rewrite Z.land_spec, Z.lnot_spec, Z.bits_0 by lia.
    destruct (Z.testbit flags i) eqn:Hf; [|reflexivity].
    rewrite (Hsub i Hi Hf). reflexivity.
Qed.

(** ** Properties of the validator *)

Section ValidateProperties.

Context {hdr : Mmt4dHeader}.

Lemma tested_dimensions_test (p : iree_ukernel_mmt4d_params_t) :
  OUTSIDE_UINT_RANGE (M p) 31 || OUTSIDE_UINT_RANGE (M p) 31
  || OUTSIDE_UINT_RANGE (K p) 31 || OUTSIDE_UINT_RANGE (M0 p) 15
  || OUTSIDE_UINT_RANGE (N0 p) 15 || OUTSIDE_UINT_RANGE (K0 p) 15 = false
  <-> tested_dimensions_in_range p.
Proof.
  unfold tested_dimensions_in_range.
  rewrite !orb_false_iff, !OUTSIDE_UINT_RANGE_false by lia. tauto.
Qed.

(** The four outcomes of the validator and exactly when each occurs. *)
Lemma validate_cases (p : iree_ukernel_mmt4d_params_t) :
  (~ flags_within (flags p) IREE_VMVX_MATMUL_FLAG_ACCUMULATE /\
   iree_ukernel_mmt4d_validate p = iree_ukernel_mmt4d_status_bad_flags)
  \/ (flags_within (flags p) IREE_VMVX_MATMUL_FLAG_ACCUMULATE /\
      ~ supported_type (type p) /\
      iree_ukernel_mmt4d_validate p = iree_ukernel_mmt4d_status_bad_type)
  \/ (flags_within (flags p) IREE_VMVX_MATMUL_FLAG_ACCUMULATE /\
      supported_type (type p) /\ ~ tested_dimensions_in_range p /\
      iree_ukernel_mmt4d_validate p =
        iree_ukernel_mmt4d_status_unsupported_huge_or_negative_dimension)
  \/ (flags_within (flags p) IREE_VMVX_MATMUL_FLAG_ACCUMULATE /\
      supported_type (type p) /\ tested_dimensions_in_range p /\
      iree_ukernel_mmt4d_validate p = iree_ukernel_mmt4d_status_ok).
Proof.
  unfold iree_ukernel_mmt4d_validate.
  destruct (Z.land (flags p) (Z.lnot IREE_VMVX_MATMUL_FLAG_ACCUMULATE) =? 0)
    eqn:Hmask; simpl.
  - apply Z.eqb_eq, flag_mask_test in Hmask. right.
    pose proof (tested_dimensions_test p) as Hdim.
    unfold supported_type.
    destruct (type p) eqn:Ht.
    + right.
      destruct (OUTSIDE_UINT_RANGE (M p) 31 || OUTSIDE_UINT_RANGE (M p) 31
                || OUTSIDE_UINT_RANGE (K p) 31 || OUTSIDE_UINT_RANGE (M0 p) 15
                || OUTSIDE_UINT_RANGE (N0 p) 15 || OUTSIDE_UINT_RANGE (K0 p) 15).
      * left. split; [exact Hmask|]. split; [now left|]. split; [|reflexivity].
        intros Hr. apply Hdim in Hr. discriminate.
      * right. split; [exact Hmask|]. split; [now left|]. split; [|reflexivity].
        now apply Hdim.
    + right.
      destruct (OUTSIDE_UINT_RANGE (M p) 31 || OUTSIDE_UINT_RANGE (M p) 31
                || OUTSIDE_UINT_RANGE (K p) 31 || OUTSIDE_UINT_RANGE (M0 p) 15
                || OUTSIDE_UINT_RANGE (N0 p) 15 || OUTSIDE_UINT_RANGE (K0 p) 15).
      * left. split; [exact Hmask|]. split; [now right|]. split; [|reflexivity].
        intros Hr. apply Hdim in Hr. discriminate.
      * right. split; [exact Hmask|]. split; [now right|]. split; [|reflexivity].
        now apply Hdim.
    + left. split; [exact Hmask|]. split; [|reflexivity].
      intros [E|E]; discriminate.
  - left. split; [|reflexivity].
    intros Hsub. apply flag_mask_test, Z.eqb_eq in Hsub. congruence.
Qed.

Ltac validate_cases p :=
  destruct (validate_cases p)
    as [[? ?]|[[? [? ?]]|[[? [? [? ?]]]|[? [? [? ?]]]]]].

Lemma validate_ok_iff (p : iree_ukernel_mmt4d_params_t) :
  iree_ukernel_mmt4d_validate p = iree_ukernel_mmt4d_status_ok <->
  flags_within (flags p) IREE_VMVX_MATMUL_FLAG_ACCUMULATE /\
  supported_type (type p) /\ tested_dimensions_in_range p.
Proof.
  validate_cases p; split; intros; try congruence; tauto.
Qed.

(** X2.  The validator returns the dimension error exactly when the flags
    are within ACCUMULATE, the type is supported, and one of [M], [K] lies
    outside [0, 2^31) or one of [M0], [N0], [K0] lies outside [0, 2^15);
    [N] takes no part. *)
Theorem validate_dimension_error_iff (p : iree_ukernel_mmt4d_params_t) :
  iree_ukernel_mmt4d_validate p =
    iree_ukernel_mmt4d_status_unsupported_huge_or_negative_dimension <->
  flags_within (flags p) IREE_VMVX_MATMUL_FLAG_ACCUMULATE /\
  supported_type (type p) /\ ~ tested_dimensions_in_range p.
Proof.
  validate_cases p; split; intros; try congruence; tauto.
Qed.

Lemma validate_never_generic_tile_size (p : iree_ukernel_mmt4d_params_t) :
  iree_ukernel_mmt4d_validate p <>
  iree_ukernel_mmt4d_status_unsupported_generic_tile_size.
Proof. validate_cases p; congruence. Qed.

Lemma dimensions_in_range_tested (p : iree_ukernel_mmt4d_params_t) :
  dimensions_in_range p -> tested_dimensions_in_range p.
Proof. unfold dimensions_in_range, tested_dimensions_in_range. tauto. Qed.

(** C9.  Validation failures have a fixed precedence: flags containing a
    bit outside ACCUMULATE give [bad_flags] whatever the type and the
    dimensions are; valid flags with an unsupported type give [bad_type]
    whatever the dimensions are; the dimension error is returned only when
    both the flags and the type are valid. *)
Theorem validate_precedence (p : iree_ukernel_mmt4d_params_t) :
  (~ flags_within (flags p) IREE_VMVX_MATMUL_FLAG_ACCUMULATE ->
   iree_ukernel_mmt4d_validate p = iree_ukernel_mmt4d_status_bad_flags)
  /\ (flags_within (flags p) IREE_VMVX_MATMUL_FLAG_ACCUMULATE ->
      ~ supported_type (type p) ->
      iree_ukernel_mmt4d_validate p = iree_ukernel_mmt4d_status_bad_type)
  /\ (iree_ukernel_mmt4d_validate p =
        iree_ukernel_mmt4d_status_unsupported_huge_or_negative_dimension ->
      flags_within (flags p) IREE_VMVX_MATMUL_FLAG_ACCUMULATE /\
      supported_type (type p)).
Proof.
  validate_cases p; repeat split; intros; try congruence; tauto.
Qed.

(** C10.  The validator reads only the flags, the type and the six
    dimensions: descriptors that agree on them get the same status, so
    replacing the strides and the buffer pointers by any values at all,
    negative or huge ones included, changes nothing. *)
Theorem validate_ignores_strides_and_buffers
    (p q : iree_ukernel_mmt4d_params_t) :
  flags p = flags q -> type p = type q ->
  M p = M q -> N p = N q -> K p = K q ->
  M0 p = M0 q -> N0 p = N0 q -> K0 p = K0 q ->
  iree_ukernel_mmt4d_validate p = iree_ukernel_mmt4d_validate q.
Proof.
  intros Hf Ht HM HN HK HM0 HN0 HK0.
  unfold iree_ukernel_mmt4d_validate.
  rewrite Hf, Ht, HM, HK, HM0, HN0, HK0. reflexivity.
Qed.

End ValidateProperties.

(** ** Properties of the loop nest *)

Section LoopNestProperties.

Context {memory : Type} {hdr : Mmt4dHeader}.

Implicit Types (p : iree_ukernel_mmt4d_params_t) (st : machine memory).

Lemma call_tile_func_some (f : tile_code memory) (c : tile_call) st :
  call_tile_func (Some f) c st =
  Some {| mem := run_calls f [c] (mem st); calls := calls st ++ [c] |}.
Proof. reflexivity. Qed.

Lemma run_calls_app (f : tile_code memory) (cs ds : list tile_call)
    (m : memory) :
  run_calls f (cs ++ ds) m = run_calls f ds (run_calls f cs m).
Proof. unfold run_calls. apply fold_left_app. Qed.

Lemma after_calls_nil (f : tile_code memory) st : after_calls f [] st = st.
Proof.
  destruct st as [m cs]. unfold after_calls. simpl.
  now rewrite app_nil_r.
Qed.

Lemma after_calls_app (f : tile_code memory) (cs ds : list tile_call) st :
  after_calls f ds (after_calls f cs st) = after_calls f (cs ++ ds) st.
Proof.
  unfold after_calls. simpl. now rewrite run_calls_app, app_assoc.
Qed.

(** With a non-null tile function the loops run to completion. *)
Lemma mmt4d_inner_loop_total p (f : tile_code memory) (lhs_panel : ptr)
    (n : nat) :
  forall (out_tile rhs_panel : ptr) st,
  exists st', mmt4d_inner_loop p (Some f) lhs_panel n out_tile rhs_panel st
              = Some st'.
Proof.
  induction n as [|n IH]; intros out_tile rhs_panel st; simpl.
  - now exists st.
  - apply IH.
Qed.

Lemma mmt4d_outer_loop_total p (f : tile_code memory) (m : nat) :
  forall (out_tile_row lhs_panel : ptr) st,
  exists st', mmt4d_outer_loop p (Some f) m out_tile_row lhs_panel st
              = Some st'.
Proof.
  induction m as [|m IH]; intros out_tile_row lhs_panel st; simpl.
  - now exists st.
  - destruct (mmt4d_inner_loop_total p f lhs_panel
                (Z.to_nat (to_int32 (N p))) out_tile_row (rhs_buffer p) st)
      as [st1 E].
    rewrite E. simpl. apply IH.
Qed.

Lemma using_tile_func_total p (f : tile_code memory) st :
  exists st', iree_ukernel_mmt4d_using_tile_func p (Some f) st = Some st'.
Proof. apply mmt4d_outer_loop_total. Qed.

(** An outer loop whose inner loop has nothing to do changes nothing, even
    through a null function pointer. *)
Lemma mmt4d_outer_loop_empty_rows p
    (tile_func : iree_ukernel_mmt4d_tile_func_t memory) (m : nat) :
  Z.to_nat (to_int32 (N p)) = O ->
  forall (out_tile_row lhs_panel : ptr) st,
  mmt4d_outer_loop p tile_func m out_tile_row lhs_panel st = Some st.
Proof.
  intros HN. induction m as [|m IH]; intros out_tile_row lhs_panel st; simpl.
  - reflexivity.
  - rewrite HN. simpl. apply IH.
Qed.

(** C8.  When [M = 0] or [N = 0] the loop nest invokes the tile function
    zero times and leaves the buffers as they were: the state after
    execution is the state before it, whatever the tile function is. *)
Theorem using_tile_func_empty_grid p
    (tile_func : iree_ukernel_mmt4d_tile_func_t memory) st :
  M p = 0 \/ N p = 0 ->
  iree_ukernel_mmt4d_using_tile_func p tile_func st = Some st.
Proof.
  unfold iree_ukernel_mmt4d_using_tile_func. intros [E|E].
  - rewrite E. reflexivity.
  - apply mmt4d_outer_loop_empty_rows. rewrite E. reflexivity.
Qed.

End LoopNestProperties.

(** ** The loop nest against the closed-form tile grid *)

Section LoopNestRefinement.

Context {memory : Type} {hdr : Mmt4dHeader}.

Variable p : iree_ukernel_mmt4d_params_t.
Hypothesis Hpre : loop_nest_preconditions p.

Let out_elem_size := 2 ^ iree_ukernel_mmt4d_out_elem_size_log2 (type p).
Let lhs_elem_size := 2 ^ iree_ukernel_mmt4d_lhs_elem_size_log2 (type p).
Let rhs_elem_size := 2 ^ iree_ukernel_mmt4d_rhs_elem_size_log2 (type p).

Lemma to_int16_shift_count (l : Z) : 0 <= l < 64 -> to_int16 l = l.
Proof. intros. apply to_int16_small. lia. Qed.

Lemma out_tile_size_value :
  out_tile_size p = M0 p * N0 p * out_elem_size.
Proof.
  destruct Hpre as ((_ & _ & _ & HM0 & HN0 & _) & _ & _ & _ & _ & _ & Hl & Hfit).
  unfold in_uint_range in HM0, HN0.
  unfold out_tile_size, out_tile_size_exact.
  rewrite (to_int16_shift_count
             (iree_ukernel_mmt4d_out_elem_size_log2 (type p))) by lia.
  rewrite !to_int16_small by lia.
  rewrite Z.shiftl_mul_pow2 by lia.
  apply to_int32_small.
  unfold fits_int32, INT32_MIN, INT32_MAX in Hfit. lia.
Qed.

Lemma step_out_tile (x a : Z) :
  ptr_add (ptr_add x a) (out_tile_size p)
  = ptr_add x (a + M0 p * N0 p * out_elem_size).
Proof. now rewrite ptr_add_assoc, out_tile_size_value. Qed.

Lemma step_rhs_panel (x a : Z) :
  ptr_add (ptr_add x a) (rhs_panel_stride p)
  = ptr_add x (a + rhs_stride p * rhs_elem_size).
Proof.
  destruct Hpre as (_ & _ & _ & _ & _ & Hl & _).
  unfold rhs_panel_stride.
  rewrite ptr_add_to_ssize, to_int16_shift_count, Z.shiftl_mul_pow2 by lia.
  apply ptr_add_assoc.
Qed.

Lemma step_lhs_panel (x a : Z) :
  ptr_add (ptr_add x a) (lhs_panel_stride p)
  = ptr_add x (a + lhs_stride p * lhs_elem_size).
Proof.
  destruct Hpre as (_ & _ & _ & _ & Hl & _).
  unfold lhs_panel_stride.
  rewrite ptr_add_to_ssize, to_int16_shift_count, Z.shiftl_mul_pow2 by lia.
  apply ptr_add_assoc.
Qed.

Lemma step_out_tile_row (x a : Z) :
  ptr_add (ptr_add x a) (out_stride_bytes p)
  = ptr_add x (a + out_stride p * out_elem_size).
Proof.
  destruct Hpre as (_ & _ & _ & _ & _ & _ & Hl & _).
  unfold out_stride_bytes.
  rewrite ptr_add_to_ssize, to_int16_shift_count, Z.shiftl_mul_pow2 by lia.
  apply ptr_add_assoc.
Qed.

Lemma passed_K : to_int32 (K p) = K p.
Proof.
  destruct Hpre as ((_ & _ & HK & _) & _).
  unfold in_uint_range in HK. apply to_int32_small. lia.
Qed.

(** The inner loop started at column [j0] of row [i] makes the invocations
    of the closed form for columns [j0, j0 + n), in order. *)
Lemma mmt4d_inner_loop_row (f : tile_code memory) (i : Z) (n : nat) :
  forall (j0 : nat) (st : machine memory),
  mmt4d_inner_loop p (Some f)
    (ptr_add (lhs_buffer p) (i * (lhs_stride p * lhs_elem_size))) n
    (ptr_add (out_buffer p)
       (i * (out_stride p * out_elem_size)
        + Z.of_nat j0 * (M0 p * N0 p * out_elem_size)))
    (ptr_add (rhs_buffer p) (Z.of_nat j0 * (rhs_stride p * rhs_elem_size)))
    st
  = Some (after_calls f (tile_row p i j0 n) st).
Proof.
  induction n as [|n IH]; intros j0 st.
  - simpl. now rewrite after_calls_nil.
  - cbn [mmt4d_inner_loop]. rewrite call_tile_func_some. cbn [bind].
    rewrite step_out_tile, step_rhs_panel, passed_K.
    replace (i * (out_stride p * out_elem_size)
             + Z.of_nat j0 * (M0 p * N0 p * out_elem_size)
             + M0 p * N0 p * out_elem_size)
      with (i * (out_stride p * out_elem_size)
            + Z.of_nat (S j0) * (M0 p * N0 p * out_elem_size)) by lia.
    replace (Z.of_nat j0 * (rhs_stride p * rhs_elem_size)
             + rhs_stride p * rhs_elem_size)
      with (Z.of_nat (S j0) * (rhs_stride p * rhs_elem_size)) by lia.
    rewrite IH. f_equal.
    unfold tile_row. cbn [seq map].
    change (tile_call_at p i (Z.of_nat j0)
            :: map (fun j => tile_call_at p i (Z.of_nat j)) (seq (S j0) n))
      with ([tile_call_at p i (Z.of_nat j0)]
            ++ map (fun j => tile_call_at p i (Z.of_nat j)) (seq (S j0) n)).
    rewrite <- after_calls_app. reflexivity.
Qed.

(** The outer loop started at row [i0] makes the invocations of rows
    [i0, i0 + m), each row complete. *)
Lemma mmt4d_outer_loop_rows (f : tile_code memory) (m : nat) :
  forall (i0 : nat) (st : machine memory),
  mmt4d_outer_loop p (Some f) m
    (ptr_add (out_buffer p) (Z.of_nat i0 * (out_stride p * out_elem_size)))
    (ptr_add (lhs_buffer p) (Z.of_nat i0 * (lhs_stride p * lhs_elem_size)))
    st
  = Some (after_calls f
            (flat_map (fun i => tile_row p (Z.of_nat i) 0 (Z.to_nat (N p)))
                      (seq i0 m)) st).
Proof.
  destruct Hpre as ((_ & HN & _) & _ & Hrhs & _).
  unfold in_uint_range in HN.
  induction m as [|m IH]; intros i0 st.
  - simpl. now rewrite after_calls_nil.
  - cbn [mmt4d_outer_loop].
    rewrite (to_int32_small (N p)) by lia.
    replace (ptr_add (out_buffer p)
               (Z.of_nat i0 * (out_stride p * out_elem_size)))
      with (ptr_add (out_buffer p)
              (Z.of_nat i0 * (out_stride p * out_elem_size)
               + Z.of_nat 0 * (M0 p * N0 p * out_elem_size)))
      by (f_equal; lia).
    rewrite <- (ptr_add_0 (rhs_buffer p) Hrhs) at 1.
    replace 0 with (Z.of_nat 0 * (rhs_stride p * rhs_elem_size)) at 2 by lia.
    rewrite mmt4d_inner_loop_row. cbn [bind].
    replace (Z.of_nat i0 * (out_stride p * out_elem_size)
             + Z.of_nat 0 * (M0 p * N0 p * out_elem_size))
      with (Z.of_nat i0 * (out_stride p * out_elem_size)) by lia.
    rewrite step_out_tile_row, step_lhs_panel.
    replace (Z.of_nat i0 * (out_stride p * out_elem_size)
             + out_stride p * out_elem_size)
      with (Z.of_nat (S i0) * (out_stride p * out_elem_size)) by lia.
    replace (Z.of_nat i0 * (lhs_stride p * lhs_elem_size)
             + lhs_stride p * lhs_elem_size)
      with (Z.of_nat (S i0) * (lhs_stride p * lhs_elem_size)) by lia.
    rewrite IH. f_equal. cbn [seq flat_map].
    now rewrite after_calls_app.
Qed.

(** X1.  Under the preconditions (dimensions in range, 64-bit buffer
    addresses, element-size shifts below 64, and an output-tile byte
    footprint that fits [int32_t]), executing the loop nest with tile
    function [f] makes exactly the invocations of [tile_grid], once per tile
    and in row-major order, each with the closed-form pointers, [K] and the
    flags; the buffers end up as those invocations leave them. *)
Theorem using_tile_func_tile_grid (f : tile_code memory)
    (st : machine memory) :
  iree_ukernel_mmt4d_using_tile_func p (Some f) st
  = Some (after_calls f (tile_grid p) st).
Proof.
  pose proof Hpre as ((HM & _) & Hlhs & _ & Hout & _).
  unfold in_uint_range in HM.
  unfold iree_ukernel_mmt4d_using_tile_func, tile_grid.
  rewrite (to_int32_small (M p)) by lia.
  rewrite <- (ptr_add_0 (out_buffer p) Hout) at 1.
  rewrite <- (ptr_add_0 (lhs_buffer p) Hlhs) at 1.
  replace 0 with (Z.of_nat 0 * (out_stride p * out_elem_size)) at 1 by lia.
  replace 0 with (Z.of_nat 0 * (lhs_stride p * lhs_elem_size)) at 2 by lia.
  apply mmt4d_outer_loop_rows.
Qed.

End LoopNestRefinement.

(** ** Properties of the resolver and of the entry point *)

Section RunProperties.

Context {memory : Type} {hdr : Mmt4dHeader}
  {providers : TileProviders memory}.

Implicit Types (p : iree_ukernel_mmt4d_params_t) (st : machine memory).

Lemma select_tile_func_arch_hit p (f : tile_code memory) :
  iree_ukernel_mmt4d_select_tile_func_arch p = Some f ->
  iree_ukernel_mmt4d_select_tile_func p =
  {| sel_status := iree_ukernel_mmt4d_status_ok;
     sel_tile_func := Some f;
     sel_consulted := [provider_arch] |}.
Proof.
  intros E. unfold iree_ukernel_mmt4d_select_tile_func. now rewrite E.
Qed.

Lemma select_tile_func_arch_miss p :
  iree_ukernel_mmt4d_select_tile_func_arch p = None ->
  iree_ukernel_mmt4d_select_tile_func p =
  {| sel_status := fst (iree_ukernel_mmt4d_select_tile_func_generic p);
     sel_tile_func := snd (iree_ukernel_mmt4d_select_tile_func_generic p);
     sel_consulted := [provider_arch; provider_generic] |}.
Proof.
  intros E. unfold iree_ukernel_mmt4d_select_tile_func. rewrite E.
  now destruct (iree_ukernel_mmt4d_select_tile_func_generic p).
Qed.

(** Once validation and selection have succeeded with tile function [f],
    the entry point executes the loop nest and returns [ok]. *)
Lemma run_executes p (f : tile_code memory) st :
  iree_ukernel_mmt4d_validate p = iree_ukernel_mmt4d_status_ok ->
  sel_status (iree_ukernel_mmt4d_select_tile_func p)
    = iree_ukernel_mmt4d_status_ok ->
  sel_tile_func (iree_ukernel_mmt4d_select_tile_func p) = Some f ->
  exists st',
    iree_ukernel_mmt4d_using_tile_func p (Some f) st = Some st' /\
    iree_ukernel_mmt4d p st = Some (iree_ukernel_mmt4d_status_ok, st').
Proof.
  intros Hv Hs Hf.
  destruct (using_tile_func_total p f st) as [st' E].
  exists st'. split; [exact E|].
  unfold iree_ukernel_mmt4d, IREE_UKERNEL_MMT4D_RETURN_IF_ERROR.
  rewrite Hv, Hs, Hf, E. reflexivity.
Qed.

(** C5.  Whenever the entry point returns a status other than [ok], the
    state it returns is the state it was given: no tile function has been
    invoked and the buffers are untouched, because every failure is decided
    before the loop nest starts. *)
Theorem run_failure_leaves_state p st
    (s : iree_ukernel_mmt4d_status_t) (st' : machine memory) :
  iree_ukernel_mmt4d p st = Some (s, st') ->
  s <> iree_ukernel_mmt4d_status_ok ->
  st' = st.
Proof.
  unfold iree_ukernel_mmt4d, IREE_UKERNEL_MMT4D_RETURN_IF_ERROR.
  intros Hrun Hs.
  destruct (iree_ukernel_mmt4d_validate p);
    try (injection Hrun as <- <-; reflexivity).
  destruct (sel_status (iree_ukernel_mmt4d_select_tile_func p));
    try (injection Hrun as <- <-; reflexivity).
  destruct (iree_ukernel_mmt4d_using_tile_func p
              (sel_tile_func (iree_ukernel_mmt4d_select_tile_func p)) st);
    simpl in Hrun; [|discriminate].
  injection Hrun as <- _. congruence.
Qed.

(** C3, as the code has it.  For a descriptor with all six dimensions in
    range, flags within ACCUMULATE and a supported type, validation succeeds
    and the entry point returns what the resolver returns: [ok], after
    running the loop nest, when the architecture-specific provider or else
    the generic provider supplies a tile function; the generic provider's
    refusal status, with nothing executed, when it refuses. *)
Theorem run_follows_selection p st :
  dimensions_in_range p ->
  flags_within (flags p) IREE_VMVX_MATMUL_FLAG_ACCUMULATE ->
  supported_type (type p) ->
  iree_ukernel_mmt4d_validate p = iree_ukernel_mmt4d_status_ok
  /\ (forall f, iree_ukernel_mmt4d_select_tile_func_arch p = Some f ->
      exists st',
        iree_ukernel_mmt4d_using_tile_func p (Some f) st = Some st' /\
        iree_ukernel_mmt4d p st = Some (iree_ukernel_mmt4d_status_ok, st'))
  /\ (forall f, iree_ukernel_mmt4d_select_tile_func_arch p = None ->
      iree_ukernel_mmt4d_select_tile_func_generic p
        = (iree_ukernel_mmt4d_status_ok, Some f) ->
      exists st',
        iree_ukernel_mmt4d_using_tile_func p (Some f) st = Some st' /\
        iree_ukernel_mmt4d p st = Some (iree_ukernel_mmt4d_status_ok, st'))
  /\ (forall e, iree_ukernel_mmt4d_select_tile_func_arch p = None ->
      fst (iree_ukernel_mmt4d_select_tile_func_generic p) = e ->
      e <> iree_ukernel_mmt4d_status_ok ->
      iree_ukernel_mmt4d p st = Some (e, st)).
Proof.
  intros Hdim Hflags Htype.
  assert (Hv : iree_ukernel_mmt4d_validate p = iree_ukernel_mmt4d_status_ok).
  { apply validate_ok_iff. auto using dimensions_in_range_tested. }
  split; [exact Hv|]. split; [|split].
  - intros f Harch. apply run_executes; [exact Hv| |];
      now rewrite (select_tile_func_arch_hit p f Harch).
  - intros f Harch Hgen. apply run_executes; [exact Hv| |];
      now rewrite (select_tile_func_arch_miss p Harch), Hgen.
  - intros e Harch Hgen He.
    unfold iree_ukernel_mmt4d, IREE_UKERNEL_MMT4D_RETURN_IF_ERROR.
    rewrite Hv, (select_tile_func_arch_miss p Harch). cbn [sel_status].
    rewrite Hgen. now destruct e.
Qed.

End RunProperties.

(** C6.  If the architecture-specific provider returns a tile function,
    the resolver returns it with [ok] and has consulted that provider only;
    otherwise it returns exactly the status and the tile function of the
    generic provider.  With the generic provider as the specification
    describes it, the only status other than [ok] the resolver can return is
    [unsupported_generic_tile_size]. *)
Theorem select_tile_func_prefers_arch (memory : Type) (hdr : Mmt4dHeader) :
  (forall (P : TileProviders memory) (p : iree_ukernel_mmt4d_params_t),
     (forall f, iree_ukernel_mmt4d_select_tile_func_arch p = Some f ->
        iree_ukernel_mmt4d_select_tile_func p =
        {| sel_status := iree_ukernel_mmt4d_status_ok;
           sel_tile_func := Some f;
           sel_consulted := [provider_arch] |})
     /\ (iree_ukernel_mmt4d_select_tile_func_arch p = None ->
         iree_ukernel_mmt4d_select_tile_func p =
         {| sel_status := fst (iree_ukernel_mmt4d_select_tile_func_generic p);
            sel_tile_func := snd (iree_ukernel_mmt4d_select_tile_func_generic p);
            sel_consulted := [provider_arch; provider_generic] |}))
  /\ (forall (arch : iree_ukernel_mmt4d_params_t ->
                     iree_ukernel_mmt4d_tile_func_t memory)
             (budget : Z)
             (generic_tile : iree_ukernel_mmt4d_type_t -> tile_code memory)
             (p : iree_ukernel_mmt4d_params_t),
        let P : TileProviders memory :=
          {| iree_ukernel_mmt4d_select_tile_func_arch := arch;
             iree_ukernel_mmt4d_select_tile_func_generic :=
               select_tile_func_generic_spec budget generic_tile |} in
        sel_status (iree_ukernel_mmt4d_select_tile_func p)
          = iree_ukernel_mmt4d_status_ok
        \/ sel_status (iree_ukernel_mmt4d_select_tile_func p)
          = iree_ukernel_mmt4d_status_unsupported_generic_tile_size).
Proof.
  split.
  - intros P p. split.
    + apply select_tile_func_arch_hit.
    + apply select_tile_func_arch_miss.
  - intros arch budget generic_tile p P.
    unfold iree_ukernel_mmt4d_select_tile_func. cbn.
    destruct (arch p); cbn; [now left|].
    unfold select_tile_func_generic_spec.
    destruct (budget <? _); cbn; auto.
Qed.

(** ** Properties of the status messages *)

Section StatusMessageProperties.

Context {hdr : Mmt4dHeader}.

Lemma status_message_nonempty (status : Z) :
  iree_ukernel_mmt4d_status_message status <> EmptyString.
Proof.
  unfold iree_ukernel_mmt4d_status_message.
  repeat match goal with
         | |- context [if ?c then _ else _] => destruct c
         end; discriminate.
Qed.

Lemma status_message_default (status : Z) :
  ~ In status case_labels ->
  iree_ukernel_mmt4d_status_message status = "unknown"%string.
Proof.
  unfold case_labels. cbn [map In]. intros Hout.
  unfold iree_ukernel_mmt4d_status_message.
  repeat match goal with
         | |- context [?a =? ?b] =>
             destruct (Z.eqb_spec a b); [exfalso; apply Hout; auto 6|]
         end.
  reflexivity.
Qed.

(** C7.  The message function is defined on every integer.  On the codes
    of [bad_flags], [bad_type], [unsupported_huge_or_negative_dimension] and
    [unsupported_generic_tile_size] it returns the four documented strings;
    on the code of each of the five statuses, [ok] included, it returns a
    non-empty string; on every integer that is the code of no status it
    returns "unknown". *)
Theorem status_message_table :
  NoDup case_labels ->
  iree_ukernel_mmt4d_status_message
    (status_code iree_ukernel_mmt4d_status_bad_flags)
    = "bad mmt4d flags"%string
  /\ iree_ukernel_mmt4d_status_message
       (status_code iree_ukernel_mmt4d_status_bad_type)
     = "bad mmt4d type enum"%string
  /\ iree_ukernel_mmt4d_status_message
       (status_code
          iree_ukernel_mmt4d_status_unsupported_huge_or_negative_dimension)
     = "unsupported huge or negative size in mmt4d"%string
  /\ iree_ukernel_mmt4d_status_message
       (status_code iree_ukernel_mmt4d_status_unsupported_generic_tile_size)
     = "tile size too large for the generic tile implementation"%string
  /\ (forall s : iree_ukernel_mmt4d_status_t,
        iree_ukernel_mmt4d_status_message (status_code s) <> EmptyString)
  /\ (forall z : Z,
        (forall s : iree_ukernel_mmt4d_status_t, z <> status_code s) ->
        iree_ukernel_mmt4d_status_message z = "unknown"%string).
Proof.
  unfold case_labels. cbn [map]. intros Hnd.
  inversion Hnd as [|a l Ha Hnd1]; subst.
  inversion Hnd1 as [|b l Hb Hnd2]; subst.
  inversion Hnd2 as [|c l Hc _]; subst.
  cbn [In] in Ha, Hb, Hc.
  unfold iree_ukernel_mmt4d_status_message.
  repeat split.
  - now rewrite Z.eqb_refl.
  - destruct (Z.eqb_spec (status_code iree_ukernel_mmt4d_status_bad_type)
                (status_code iree_ukernel_mmt4d_status_bad_flags)) as [E|_];
      [exfalso; apply Ha; auto|].
    now rewrite Z.eqb_refl.
  - destruct (Z.eqb_spec
                (status_code
                   iree_ukernel_mmt4d_status_unsupported_huge_or_negative_dimension)
                (status_code iree_ukernel_mmt4d_status_bad_flags)) as [E|_];
      [exfalso; apply Ha; auto|].
    destruct (Z.eqb_spec
                (status_code
                   iree_ukernel_mmt4d_status_unsupported_huge_or_negative_dimension)
                (status_code iree_ukernel_mmt4d_status_bad_type)) as [E|_];
      [exfalso; apply Hb; auto|].
    now rewrite Z.eqb_refl.
  - destruct (Z.eqb_spec
                (status_code
                   iree_ukernel_mmt4d_status_unsupported_generic_tile_size)
                (status_code iree_ukernel_mmt4d_status_bad_flags)) as [E|_];
      [exfalso; apply Ha; auto 6|].
    destruct (Z.eqb_spec
                (status_code
                   iree_ukernel_mmt4d_status_unsupported_generic_tile_size)
                (status_code iree_ukernel_mmt4d_status_bad_type)) as [E|_];
      [exfalso; apply Hb; auto|].
    destruct (Z.eqb_spec
                (status_code
                   iree_ukernel_mmt4d_status_unsupported_generic_tile_size)
                (status_code
                   iree_ukernel_mmt4d_status_unsupported_huge_or_negative_dimension))
      as [E|_]; [exfalso; apply Hc; auto|].
    now rewrite Z.eqb_refl.
  - intros s. apply status_message_nonempty.
  - intros z Hz. apply status_message_default.
    unfold case_labels. cbn [map In]. intros [E|[E|[E|[E|[]]]]];
      symmetry in E; exact (Hz _ E).
Qed.

End StatusMessageProperties.

(** ** The code on particular descriptors *)

Lemma flags_within_0 (allowed : Z) : flags_within 0 allowed.
Proof. intros i _ Hb. rewrite Z.bits_0 in Hb. discriminate. Qed.

Lemma sample_in_range : dimensions_in_range sample_params.
Proof. unfold dimensions_in_range, in_uint_range. cbn. lia. Qed.

Lemma widest_tile_in_range : dimensions_in_range widest_tile_params.
Proof. unfold dimensions_in_range, in_uint_range. cbn. lia. Qed.

Lemma tile_64x64_in_range : dimensions_in_range tile_64x64_params.
Proof. unfold dimensions_in_range, in_uint_range. cbn. lia. Qed.

(** C1.  The claim is that a descriptor with valid flags and type is
    rejected with [unsupported_huge_or_negative_dimension] exactly when a
    dimension is out of range, in particular when [N] is.  The validator
    never tests [N] (the range test on [M] is written twice): on
    [negative_N_params], whose only fault is [N = -1], it returns [ok],
    whatever the header's constants are. *)
Theorem validate_accepts_negative_N (hdr : Mmt4dHeader) :
  ~ in_uint_range (N negative_N_params) 31
  /\ iree_ukernel_mmt4d_validate negative_N_params
     = iree_ukernel_mmt4d_status_ok.
Proof.
  split.
  - unfold in_uint_range. cbn. lia.
  - unfold iree_ukernel_mmt4d_validate. cbn [flags negative_N_params].
    rewrite Z.land_0_l. reflexivity.
Qed.

(** The validator's answer does not depend on [N] at all. *)
Lemma validate_ignores_N (hdr : Mmt4dHeader)
    (p : iree_ukernel_mmt4d_params_t) (n : Z) :
  iree_ukernel_mmt4d_validate
    {| type := type p; flags := flags p;
       lhs_buffer := lhs_buffer p; rhs_buffer := rhs_buffer p;
       out_buffer := out_buffer p;
       lhs_stride := lhs_stride p; rhs_stride := rhs_stride p;
       out_stride := out_stride p;
       M := M p; N := n; K := K p; M0 := M0 p; N0 := N0 p; K0 := K0 p |}
  = iree_ukernel_mmt4d_validate p.
Proof. reflexivity. Qed.

(** The product of the two tile extents always fits an [int]; it is the
    shift by the element size that can leave the [int32_t] range. *)
Lemma tile_elements_fit_int32 (p : iree_ukernel_mmt4d_params_t) :
  dimensions_in_range p ->
  fits_int32 (to_int16 (M0 p) * to_int16 (N0 p)).
Proof.
  intros (_ & _ & _ & HM0 & HN0 & _). unfold in_uint_range in HM0, HN0.
  rewrite !to_int16_small by lia.
  unfold fits_int32, INT32_MIN, INT32_MAX. nia.
Qed.

(** C4.  The claim is that for a validated descriptor the output tile byte
    footprint cannot overflow a signed 32-bit intermediate.  On
    [widest_tile_params], a tile of 32767 x 32767 four-byte elements with
    every dimension in range, validation returns [ok] and the footprint
    [(M0 * N0) << 2 = 4294705156] is above [INT32_MAX]: the [int32_t]
    variable [out_tile_size] receives [-262140]. *)
Theorem out_tile_size_overflows_int32 :
  dimensions_in_range widest_tile_params
  /\ iree_ukernel_mmt4d_validate (hdr := spec_header) widest_tile_params
     = iree_ukernel_mmt4d_status_ok
  /\ out_tile_size_exact (hdr := spec_header) widest_tile_params = 4294705156
  /\ ~ fits_int32 (out_tile_size_exact (hdr := spec_header) widest_tile_params)
  /\ out_tile_size (hdr := spec_header) widest_tile_params = -262140.
Proof.
  split; [exact widest_tile_in_range|].
  split; [reflexivity|].
  split; [reflexivity|].
  split; [|reflexivity].
  unfold fits_int32, INT32_MIN, INT32_MAX.
  change (out_tile_size_exact (hdr := spec_header) widest_tile_params)
    with 4294705156.
  lia.
Qed.

(** C2.  The claim is that for a validated descriptor the invocations of
    the loop nest carry the closed-form pointers.  On [widest_tile_params],
    validated and with two tiles in one row, the loop nest hands the second
    tile the address [out_buffer - 262140], where the closed form has
    [out_buffer + 4294705156]: the sequence of output-tile pointers of the
    code differs from that of the closed form. *)
Theorem using_tile_func_misplaces_wide_tiles :
  dimensions_in_range widest_tile_params
  /\ iree_ukernel_mmt4d_validate (hdr := spec_header) widest_tile_params
     = iree_ukernel_mmt4d_status_ok
  /\ option_map (fun st => map call_out_tile (calls st))
       (iree_ukernel_mmt4d_using_tile_func (hdr := spec_header)
          widest_tile_params (Some idle_tile) idle_machine)
     = Some [2 ^ 40; 2 ^ 40 - 262140]
  /\ map call_out_tile (tile_grid (hdr := spec_header) widest_tile_params)
     = [2 ^ 40; 2 ^ 40 + 4294705156]
  /\ option_map (fun st => map call_out_tile (calls st))
       (iree_ukernel_mmt4d_using_tile_func (hdr := spec_header)
          widest_tile_params (Some idle_tile) idle_machine)
     <> Some (map call_out_tile
                (tile_grid (hdr := spec_header) widest_tile_params)).
Proof.
  split; [exact widest_tile_in_range|].
  split; [reflexivity|].
  split; [vm_compute; reflexivity|].
  split; [vm_compute; reflexivity|].
  vm_compute. discriminate.
Qed.

(** With [N] out of range the loop bound itself is lost: [N = 2^32 + 1] is
    accepted and the inner loop makes one invocation per row. *)
Lemma using_tile_func_truncates_N :
  let p := {| type := iree_ukernel_mmt4d_type_i8i8i32; flags := 0;
              lhs_buffer := 4096; rhs_buffer := 8192; out_buffer := 12288;
              lhs_stride := 1; rhs_stride := 1; out_stride := 1;
              M := 1; N := 2 ^ 32 + 1; K := 1;
              M0 := 1; N0 := 1; K0 := 1 |} in
  iree_ukernel_mmt4d_validate (hdr := spec_header) p
    = iree_ukernel_mmt4d_status_ok
  /\ option_map (fun st => List.length (calls st))
       (iree_ukernel_mmt4d_using_tile_func (hdr := spec_header)
          p (Some idle_tile) idle_machine)
     = Some 1%nat.
Proof. split; vm_compute; reflexivity. Qed.

(** C3, as stated, fails: a 64 x 64 float tile meets every range, has no
    flags and a supported type, and a generic provider with a 4096-byte
    budget refuses it; the entry point returns
    [unsupported_generic_tile_size] and executes nothing. *)
Lemma run_refuses_tile_64x64 :
  dimensions_in_range tile_64x64_params
  /\ flags_within (flags tile_64x64_params)
       (IREE_VMVX_MATMUL_FLAG_ACCUMULATE (Mmt4dHeader := spec_header))
  /\ supported_type (type tile_64x64_params)
  /\ iree_ukernel_mmt4d (hdr := spec_header)
       (providers := generic_only_providers (hdr := spec_header) 4096
                (fun _ => idle_tile))
       tile_64x64_params idle_machine
     = Some (iree_ukernel_mmt4d_status_unsupported_generic_tile_size,
             idle_machine)
  /\ iree_ukernel_mmt4d_status_unsupported_generic_tile_size
     <> iree_ukernel_mmt4d_status_ok.
Proof.
  split; [exact tile_64x64_in_range|].
  split; [apply flags_within_0|].
  split; [now left|].
  split; [reflexivity|discriminate].
Qed.

(** ** The theorems at concrete descriptors *)

Lemma sample_loop_nest_preconditions :
  loop_nest_preconditions (hdr := spec_header) sample_params.
Proof.
  unfold loop_nest_preconditions, dimensions_in_range, in_uint_range,
    valid_ptr, fits_int32, INT32_MIN, INT32_MAX.
  cbn. lia.
Defined.

Lemma using_tile_func_tile_grid_witness :
  loop_nest_preconditions (hdr := spec_header) sample_params
  /\ iree_ukernel_mmt4d_using_tile_func (hdr := spec_header)
       sample_params (Some idle_tile) idle_machine
     = Some (after_calls idle_tile
               (tile_grid (hdr := spec_header) sample_params) idle_machine)
  /\ List.length (tile_grid (hdr := spec_header) sample_params) = 6%nat.
Proof.
  split; [exact sample_loop_nest_preconditions|].
  split; [|reflexivity].
  exact (@using_tile_func_tile_grid unit spec_header sample_params
           sample_loop_nest_preconditions idle_tile idle_machine).
Defined.

Lemma validate_ignores_strides_and_buffers_witness :
  (flags sample_params = flags wild_stride_params
   /\ type sample_params = type wild_stride_params
   /\ M sample_params = M wild_stride_params
   /\ N sample_params = N wild_stride_params
   /\ K sample_params = K wild_stride_params
   /\ M0 sample_params = M0 wild_stride_params
   /\ N0 sample_params = N0 wild_stride_params
   /\ K0 sample_params = K0 wild_stride_params)
  /\ lhs_stride sample_params <> lhs_stride wild_stride_params
  /\ iree_ukernel_mmt4d_validate (hdr := spec_header) sample_params
     = iree_ukernel_mmt4d_validate (hdr := spec_header) wild_stride_params.
Proof.
  split; [repeat split|].
  split; [discriminate|].
  exact (@validate_ignores_strides_and_buffers spec_header
           sample_params wild_stride_params
           eq_refl eq_refl eq_refl eq_refl eq_refl eq_refl eq_refl eq_refl).
Defined.

Lemma using_tile_func_empty_grid_witness :
  (M empty_row_params = 0 \/ N empty_row_params = 0)
  /\ iree_ukernel_mmt4d_using_tile_func (hdr := spec_header)
       empty_row_params (Some idle_tile) idle_machine
     = Some idle_machine.
Proof.
  split; [right; reflexivity|].
  exact (@using_tile_func_empty_grid unit spec_header empty_row_params
           (Some idle_tile) idle_machine (or_intror eq_refl)).
Defined.

Lemma run_failure_leaves_state_witness :
  iree_ukernel_mmt4d (hdr := spec_header)
    (providers := generic_only_providers (hdr := spec_header) 4096
             (fun _ => idle_tile))
    all_wrong_params idle_machine
  = Some (iree_ukernel_mmt4d_status_bad_flags, idle_machine)
  /\ iree_ukernel_mmt4d_status_bad_flags <> iree_ukernel_mmt4d_status_ok
  /\ idle_machine = idle_machine.
Proof.
  split; [reflexivity|].
  split; [discriminate|].
  apply (@run_failure_leaves_state unit spec_header
           (generic_only_providers (hdr := spec_header) 4096
              (fun _ => idle_tile))
           all_wrong_params idle_machine
           iree_ukernel_mmt4d_status_bad_flags idle_machine).
  - reflexivity.
  - discriminate.
Defined.

Lemma run_follows_selection_witness :
  dimensions_in_range sample_params
  /\ flags_within (flags sample_params)
       (IREE_VMVX_MATMUL_FLAG_ACCUMULATE (Mmt4dHeader := spec_header))
  /\ supported_type (type sample_params)
  /\ iree_ukernel_mmt4d_validate (hdr := spec_header) sample_params
     = iree_ukernel_mmt4d_status_ok
  /\ exists st',
       iree_ukernel_mmt4d (hdr := spec_header)
         (providers := generic_only_providers (hdr := spec_header) 4096
                  (fun _ => idle_tile))
         sample_params idle_machine
       = Some (iree_ukernel_mmt4d_status_ok, st').
Proof.
  assert (Hf : flags_within (flags sample_params)
                 (IREE_VMVX_MATMUL_FLAG_ACCUMULATE
                    (Mmt4dHeader := spec_header)))
    by apply flags_within_0.
  assert (Ht : supported_type (type sample_params)) by (now left).
  destruct (@run_follows_selection unit spec_header
              (generic_only_providers (hdr := spec_header) 4096
                 (fun _ => idle_tile))
              sample_params idle_machine sample_in_range Hf Ht)
    as (Hv & _ & Hgen & _).
  split; [exact sample_in_range|].
  split; [exact Hf|].
  split; [exact Ht|].
  split; [exact Hv|].
  destruct (Hgen idle_tile eq_refl eq_refl) as (st' & _ & Hrun).
  exists st'. exact Hrun.
Defined.

Lemma spec_case_labels_distinct : NoDup (case_labels (hdr := spec_header)).
Proof.
  unfold case_labels. cbn.
  repeat (constructor; [cbn; intuition discriminate|]).
  constructor.
Defined.

Lemma status_message_table_witness :
  NoDup (case_labels (hdr := spec_header))
  /\ iree_ukernel_mmt4d_status_message (hdr := spec_header) 1
     = "bad mmt4d flags"%string
  /\ iree_ukernel_mmt4d_status_message (hdr := spec_header) 0
     <> EmptyString
  /\ iree_ukernel_mmt4d_status_message (hdr := spec_header) 77
     = "unknown"%string.
Proof.
  destruct (@status_message_table spec_header spec_case_labels_distinct)
    as (Hflags & _ & _ & _ & Hne & Hunknown).
  split; [exact spec_case_labels_distinct|].
  split; [exact Hflags|].
  split; [exact (Hne iree_ukernel_mmt4d_status_ok)|].
  apply Hunknown. intros s. destruct s; discriminate.
Defined.

(** ** Further properties of the validator, the loop nest and the entry point *)

Section ValidateStatus.

Context {hdr : Mmt4dHeader}.

(** X3.  The status of the validator is determined exactly: [ok] when the
    flags are within ACCUMULATE, the type is supported and [M], [K], [M0],
    [N0], [K0] are in range; [bad_flags] when the flags have a bit outside
    ACCUMULATE; [bad_type] when the flags are valid and the type is not
    supported; and never [unsupported_generic_tile_size]. *)
Theorem validate_status_exactly (p : iree_ukernel_mmt4d_params_t) :
  (iree_ukernel_mmt4d_validate p = iree_ukernel_mmt4d_status_ok <->
   flags_within (flags p) IREE_VMVX_MATMUL_FLAG_ACCUMULATE /\
   supported_type (type p) /\ tested_dimensions_in_range p)
  /\ (iree_ukernel_mmt4d_validate p = iree_ukernel_mmt4d_status_bad_flags <->
      ~ flags_within (flags p) IREE_VMVX_MATMUL_FLAG_ACCUMULATE)
  /\ (iree_ukernel_mmt4d_validate p = iree_ukernel_mmt4d_status_bad_type <->
      flags_within (flags p) IREE_VMVX_MATMUL_FLAG_ACCUMULATE /\
      ~ supported_type (type p))
  /\ iree_ukernel_mmt4d_validate p <>
     iree_ukernel_mmt4d_status_unsupported_generic_tile_size.
Proof.
  destruct (validate_cases p)
    as [[Hf Hv]|[[Hf [Ht Hv]]|[[Hf [Ht [Hd Hv]]]|[Hf [Ht [Hd Hv]]]]]];
    rewrite Hv;
    (split; [|split; [|split]]);
    try (split; intros);
    try discriminate; try (intros E; discriminate); tauto.
Qed.

End ValidateStatus.

Section MachineGridProperties.

Context {memory : Type} {hdr : Mmt4dHeader}.

Variable p : iree_ukernel_mmt4d_params_t.

Lemma machine_inner_loop_row (f : tile_code memory) (i : Z) (n : nat) :
  forall (j0 : nat) (st : machine memory),
  mmt4d_inner_loop p (Some f)
    (ptr_add (lhs_buffer p) (i * lhs_panel_stride p)) n
    (ptr_add (out_buffer p)
       (i * out_stride_bytes p + Z.of_nat j0 * out_tile_size p))
    (ptr_add (rhs_buffer p) (Z.of_nat j0 * rhs_panel_stride p))
    st
  = Some (after_calls f (machine_row p i j0 n) st).
Proof.
  induction n as [|n IH]; intros j0 st.
  - simpl. now rewrite after_calls_nil.
  - cbn [mmt4d_inner_loop]. rewrite call_tile_func_some. cbn [bind].
    rewrite !ptr_add_assoc.
    replace (i * out_stride_bytes p + Z.of_nat j0 * out_tile_size p
             + out_tile_size p)
      with (i * out_stride_bytes p + Z.of_nat (S j0) * out_tile_size p)
      by lia.
    replace (Z.of_nat j0 * rhs_panel_stride p + rhs_panel_stride p)
      with (Z.of_nat (S j0) * rhs_panel_stride p) by lia.
    rewrite IH. f_equal.
    unfold machine_row. cbn [seq map].
    exact (after_calls_app f [machine_call_at p i (Z.of_nat j0)]
             (map (fun j => machine_call_at p i (Z.of_nat j)) (seq (S j0) n))
             st).
Qed.

Lemma machine_outer_loop_rows (f : tile_code memory) (m : nat) :
  valid_ptr (rhs_buffer p) ->
  forall (i0 : nat) (st : machine memory),
  mmt4d_outer_loop p (Some f) m
    (ptr_add (out_buffer p) (Z.of_nat i0 * out_stride_bytes p))
    (ptr_add (lhs_buffer p) (Z.of_nat i0 * lhs_panel_stride p))
    st
  = Some (after_calls f
            (flat_map (fun i => machine_row p (Z.of_nat i) 0
                                  (Z.to_nat (to_int32 (N p))))
                      (seq i0 m)) st).
Proof.
  intros Hrhs. induction m as [|m IH]; intros i0 st.
  - simpl. now rewrite after_calls_nil.
  - cbn [mmt4d_outer_loop].
    pose proof (machine_inner_loop_row f (Z.of_nat i0)
                  (Z.to_nat (to_int32 (N p))) 0 st) as Hrow.
    replace (Z.of_nat i0 * out_stride_bytes p + Z.of_nat 0 * out_tile_size p)
      with (Z.of_nat i0 * out_stride_bytes p) in Hrow by lia.
    replace (Z.of_nat 0 * rhs_panel_stride p) with 0 in Hrow by lia.
    rewrite (ptr_add_0 (rhs_buffer p) Hrhs) in Hrow.
    rewrite Hrow. cbn [bind].
    rewrite !ptr_add_assoc.
    replace (Z.of_nat i0 * out_stride_bytes p + out_stride_bytes p)
      with (Z.of_nat (S i0) * out_stride_bytes p) by lia.
    replace (Z.of_nat i0 * lhs_panel_stride p + lhs_panel_stride p)
      with (Z.of_nat (S i0) * lhs_panel_stride p) by lia.
    rewrite IH. f_equal. cbn [seq flat_map].
    now rewrite after_calls_app.
Qed.

(** X4.  For every descriptor whose three buffers are 64-bit addresses,
    whatever its dimensions and strides, the loop nest run with tile
    function [f] makes exactly the invocations of [machine_grid]: one per
    [(i, j)] below the narrowed bounds, row by row, at offsets that are
    multiples of the narrowed strides and tile size. *)
Theorem using_tile_func_machine_grid (f : tile_code memory)
    (st : machine memory) :
  valid_ptr (lhs_buffer p) -> valid_ptr (rhs_buffer p) ->
  valid_ptr (out_buffer p) ->
  iree_ukernel_mmt4d_using_tile_func p (Some f) st
  = Some (after_calls f (machine_grid p) st).
Proof.
  intros Hlhs Hrhs Hout.
  unfold iree_ukernel_mmt4d_using_tile_func, machine_grid.
  pose proof (machine_outer_loop_rows f (Z.to_nat (to_int32 (M p))) Hrhs 0 st)
    as Hrows.
  change (Z.of_nat 0) with 0 in Hrows. rewrite !Z.mul_0_l in Hrows.
  rewrite (ptr_add_0 _ Hout), (ptr_add_0 _ Hlhs) in Hrows.
  exact Hrows.
Qed.

(** What the loops append, for any starting pointers: [n] (resp. [m * n])
    invocations, all with the same [K], flags and descriptor. *)
Lemma inner_loop_appends (f : tile_code memory) (lhs_panel : ptr) (n : nat) :
  forall (out_tile rhs_panel : ptr) (st : machine memory),
  exists cs,
    mmt4d_inner_loop p (Some f) lhs_panel n out_tile rhs_panel st
      = Some (after_calls f cs st)
    /\ List.length cs = n
    /\ Forall (uniform_arguments p) cs
    /\ Forall (fun c => call_lhs_panel c = lhs_panel) cs.
Proof.
  induction n as [|n IH]; intros out_tile rhs_panel st.
  - exists []. simpl. rewrite after_calls_nil. repeat split; constructor.
  - cbn [mmt4d_inner_loop]. rewrite call_tile_func_some. cbn [bind].
    match goal with
    | |- context [mmt4d_inner_loop p (Some f) lhs_panel n ?o ?r ?s] =>
        destruct (IH o r s) as (cs & E & Hlen & Hall & Hlhs)
    end.
    eexists (_ :: cs). rewrite E. split; [|split; [|split]].
    + f_equal. exact (after_calls_app f [_] cs st).
    + simpl. now rewrite Hlen.
    + constructor; [repeat split|exact Hall].
    + constructor; [reflexivity|exact Hlhs].
Qed.

Lemma outer_loop_appends (f : tile_code memory) (m : nat) :
  forall (out_tile_row lhs_panel : ptr) (st : machine memory),
  exists cs,
    mmt4d_outer_loop p (Some f) m out_tile_row lhs_panel st
      = Some (after_calls f cs st)
    /\ List.length cs = (m * Z.to_nat (to_int32 (N p)))%nat
    /\ Forall (uniform_arguments p) cs.
Proof.
  induction m as [|m IH]; intros out_tile_row lhs_panel st.
  - exists []. simpl. rewrite after_calls_nil. repeat split; constructor.
  - cbn [mmt4d_outer_loop].
    destruct (inner_loop_appends f lhs_panel (Z.to_nat (to_int32 (N p)))
                out_tile_row (rhs_buffer p) st)
      as (row & Erow & Hrow_len & Hrow_all & _).
    rewrite Erow. cbn [bind].
    match goal with
    | |- context [mmt4d_outer_loop p (Some f) m ?o ?l ?s] =>
        destruct (IH o l s) as (cs & E & Hlen & Hall)
    end.
    exists (row ++ cs). rewrite E, after_calls_app.
    split; [reflexivity|]. split.
    + rewrite length_app, Hrow_len, Hlen. simpl. reflexivity.
    + apply Forall_app. now split.
Qed.

(** X5.  For every descriptor and every non-null tile function the loop
    nest completes; it keeps the invocations recorded before it, appends
    exactly [max 0 (int32 M) * max 0 (int32 N)] invocations, and each of
    them receives the narrowed [K], the flags and the descriptor
    unchanged. *)
Theorem using_tile_func_invocations (f : tile_code memory)
    (st : machine memory) :
  exists cs,
    iree_ukernel_mmt4d_using_tile_func p (Some f) st
      = Some {| mem := run_calls f cs (mem st); calls := calls st ++ cs |}
    /\ Z.of_nat (List.length cs)
       = Z.max 0 (to_int32 (M p)) * Z.max 0 (to_int32 (N p))
    /\ Forall (uniform_arguments p) cs.
Proof.
  destruct (outer_loop_appends f (Z.to_nat (to_int32 (M p)))
              (out_buffer p) (lhs_buffer p) st) as (cs & E & Hlen & Hall).
  exists cs. split; [exact E|]. split; [|exact Hall].
  rewrite Hlen, Nat2Z.inj_mul, !ZifyInst.of_nat_to_nat_eq. reflexivity.
Qed.

End MachineGridProperties.

Section EntryPointProperties.

Context {memory : Type} {hdr : Mmt4dHeader}
  {providers : TileProviders memory}.

Implicit Types (p : iree_ukernel_mmt4d_params_t) (st : machine memory).

Lemma loop_nest_makes_tile_grid p (f : tile_code memory) st :
  loop_nest_preconditions p ->
  iree_ukernel_mmt4d_using_tile_func p (Some f) st
  = Some (after_calls f (tile_grid p) st).
Proof.
  intros Hpre.
  pose proof Hpre as ((HM & _) & Hlhs & _ & Hout & _).
  unfold in_uint_range in HM.
  unfold iree_ukernel_mmt4d_using_tile_func, tile_grid.
  rewrite (to_int32_small (M p)) by lia.
  pose proof (mmt4d_outer_loop_rows p Hpre f (Z.to_nat (M p)) 0 st) as Hrows.
  change (Z.of_nat 0) with 0 in Hrows. rewrite !Z.mul_0_l in Hrows.
  rewrite (ptr_add_0 _ Hout), (ptr_add_0 _ Hlhs) in Hrows.
  exact Hrows.
Qed.

(** X6.  End to end: for a descriptor that meets the loop-nest
    preconditions, has flags within ACCUMULATE and a supported type, and for
    which the resolver obtains tile function [f] (from the
    architecture-specific provider, or from the generic one when the former
    has none), the entry point returns [ok] and the state is the initial one
    followed by the invocations of the closed-form tile grid. *)
Theorem run_makes_tile_grid p (f : tile_code memory) st :
  loop_nest_preconditions p ->
  flags_within (flags p) IREE_VMVX_MATMUL_FLAG_ACCUMULATE ->
  supported_type (type p) ->
  iree_ukernel_mmt4d_select_tile_func_arch p = Some f
  \/ (iree_ukernel_mmt4d_select_tile_func_arch p = None /\
      iree_ukernel_mmt4d_select_tile_func_generic p
        = (iree_ukernel_mmt4d_status_ok, Some f)) ->
  iree_ukernel_mmt4d p st
  = Some (iree_ukernel_mmt4d_status_ok,
          {| mem := run_calls f (tile_grid p) (mem st);
             calls := calls st ++ tile_grid p |}).
Proof.
  intros Hpre Hflags Htype Hsel.
  assert (Hv : iree_ukernel_mmt4d_validate p = iree_ukernel_mmt4d_status_ok).
  { apply validate_ok_iff. destruct Hpre as (Hdim & _).
    auto using dimensions_in_range_tested. }
  assert (Hs : iree_ukernel_mmt4d_select_tile_func p =
               {| sel_status := iree_ukernel_mmt4d_status_ok;
                  sel_tile_func := Some f;
                  sel_consulted :=
                    sel_consulted (iree_ukernel_mmt4d_select_tile_func p) |}).
  { destruct Hsel as [Harch|[Harch Hgen]].
    - now rewrite (select_tile_func_arch_hit p f Harch).
    - now rewrite (select_tile_func_arch_miss p Harch), Hgen. }
  unfold iree_ukernel_mmt4d, IREE_UKERNEL_MMT4D_RETURN_IF_ERROR.
  rewrite Hv, Hs. cbn [sel_status sel_tile_func].
  rewrite (loop_nest_makes_tile_grid p f st Hpre). reflexivity.
Qed.

(** X7.  Whatever the providers are, the entry point rejects a malformed
    descriptor with the validator's status and returns the state it was
    given: [bad_flags] for flags outside ACCUMULATE, [bad_type] for valid
    flags with an unsupported type, and the dimension error for valid flags
    and type with one of [M], [K], [M0], [N0], [K0] out of range. *)
Theorem run_rejects_malformed p st :
  (~ flags_within (flags p) IREE_VMVX_MATMUL_FLAG_ACCUMULATE ->
   iree_ukernel_mmt4d p st = Some (iree_ukernel_mmt4d_status_bad_flags, st))
  /\ (flags_within (flags p) IREE_VMVX_MATMUL_FLAG_ACCUMULATE ->
      ~ supported_type (type p) ->
      iree_ukernel_mmt4d p st = Some (iree_ukernel_mmt4d_status_bad_type, st))
  /\ (flags_within (flags p) IREE_VMVX_MATMUL_FLAG_ACCUMULATE ->
      supported_type (type p) ->
      ~ tested_dimensions_in_range p ->
      iree_ukernel_mmt4d p st =
      Some (iree_ukernel_mmt4d_status_unsupported_huge_or_negative_dimension,
            st)).
Proof.
  unfold iree_ukernel_mmt4d, IREE_UKERNEL_MMT4D_RETURN_IF_ERROR.
  destruct (validate_cases p)
    as [[Hf Hv]|[[Hf [Ht Hv]]|[[Hf [Ht [Hd Hv]]]|[Hf [Ht [Hd Hv]]]]]];
    rewrite Hv; (split; [|split]); intros; try reflexivity; tauto.
Qed.

End EntryPointProperties.

Section StatusMessageInjective.

Context {hdr : Mmt4dHeader}.

Hypothesis status_code_injective :
  forall s t : iree_ukernel_mmt4d_status_t,
    status_code s = status_code t -> s = t.

Ltac decide_case_labels :=
  unfold iree_ukernel_mmt4d_status_message;
  repeat match goal with
         | |- context [status_code ?a =? status_code ?b] =>
             let E := fresh "E" in
             destruct (Z.eqb_spec (status_code a) (status_code b)) as [E|E];
             [try (apply status_code_injective in E; discriminate E)
             |try (exfalso; apply E; reflexivity)]
         end.

Lemma status_message_of_code (s : iree_ukernel_mmt4d_status_t) :
  iree_ukernel_mmt4d_status_message (status_code s) =
  match s with
  | iree_ukernel_mmt4d_status_ok => "unknown"
  | iree_ukernel_mmt4d_status_bad_flags => "bad mmt4d flags"
  | iree_ukernel_mmt4d_status_bad_type => "bad mmt4d type enum"
  | iree_ukernel_mmt4d_status_unsupported_huge_or_negative_dimension =>
      "unsupported huge or negative size in mmt4d"
  | iree_ukernel_mmt4d_status_unsupported_generic_tile_size =>
      "tile size too large for the generic tile implementation"
  end%string.
Proof. destruct s; decide_case_labels; reflexivity. Qed.

(** X8.  When the five statuses have distinct codes, their messages are
    distinct too: a message identifies the status it was produced for, with
    [ok] being the one status rendered as "unknown". *)
Theorem status_message_identifies_status
    (s t : iree_ukernel_mmt4d_status_t) :
  iree_ukernel_mmt4d_status_message (status_code s)
    = iree_ukernel_mmt4d_status_message (status_code t) ->
  s = t.
Proof.
  rewrite !status_message_of_code. destruct s, t; intros E;
    first [reflexivity | discriminate E].
Qed.

End StatusMessageInjective.

(** * Properties of the comparison of result lists *)

Module ComparisonProperties.

Import Comparison.

Local Open Scope string_scope.

(** ** Strings *)

Lemma string_app_assoc (a b c : string) : (a ++ b) ++ c = a ++ (b ++ c).
Proof. induction a as [|x a IH]; simpl; [reflexivity|now rewrite IH]. Qed.

Lemma string_app_nil_r (a : string) : a ++ "" = a.
Proof. induction a as [|x a IH]; simpl; [reflexivity|now rewrite IH]. Qed.

Lemma string_length_app (a b : string) :
  String.length (a ++ b) = (String.length a + String.length b)%nat.
Proof. induction a as [|x a IH]; simpl; [reflexivity|now rewrite IH]. Qed.

Lemma string_app_inv_nil (a b : string) : a ++ b = a -> b = "".
Proof.
  intros E. apply (f_equal String.length) in E.
  rewrite string_length_app in E.
  destruct b; [reflexivity|simpl in E; lia].
Qed.

Lemma unwritten_length (n : nat) : String.length (unwritten n) = n.
Proof. induction n as [|n IH]; simpl; [reflexivity|now rewrite IH]. Qed.

Lemma substring_0_length (n : nat) :
  forall s : string, (n <= String.length s)%nat ->
  String.length (substring 0 n s) = n.
Proof.
  induction n as [|n IH]; intros s Hn.
  - destruct s; reflexivity.
  - destruct s as [|x s]; simpl in *; [lia|].
    rewrite IH by lia. reflexivity.
Qed.

Lemma stored_in_length (n : nat) (text : string) :
  String.length (stored_in n text) = n.
Proof.
  unfold stored_in. apply substring_0_length.
  rewrite string_length_app, unwritten_length. lia.
Qed.

Section Facts.

Context {types : VmTypes} {api : IreeApi}.

Lemma grows_refl (b : string) : grows b b.
Proof. exists "". now rewrite string_app_nil_r. Qed.

Lemma grows_trans (a b c : string) : grows a b -> grows b c -> grows a c.
Proof.
  intros [u ->] [v ->]. exists (u ++ v). apply string_app_assoc.
Qed.

Lemma reports_grows (start a b c : string) :
  reports start a b -> grows b c -> reports start a c.
Proof.
  intros [u ->] [v ->]. exists (u ++ v).
  now rewrite !string_app_assoc.
Qed.

Lemma reports_is_grows (start a b : string) : reports start a b -> grows a b.
Proof. intros [u ->]. now exists (start ++ u). Qed.

(** ** The builder *)

Lemma append_string_checked (builder value builder' : string) :
  IREE_CHECK_OK (iree_string_builder_append_string builder value)
    = Some builder' ->
  builder' = builder ++ value.
Proof.
  unfold IREE_CHECK_OK, iree_string_builder_append_string.
  destruct (iree_status_is_ok (builder_grow_status builder _)) eqn:E;
    simpl; rewrite ?E; intros H; [now injection H as <-|discriminate].
Qed.

Lemma append_string_grows (builder value : string) :
  grows builder (snd (iree_string_builder_append_string builder value)).
Proof.
  unfold iree_string_builder_append_string.
  destruct (iree_status_is_ok _); simpl; [now exists value|apply grows_refl].
Qed.

Lemma append_variant_type_string_grows (variant : iree_vm_variant_t)
    (builder : string) :
  grows builder (snd (iree_vm_append_variant_type_string variant builder)).
Proof.
  unfold iree_vm_append_variant_type_string,
    iree_string_builder_append_cstring.
  repeat match goal with
         | |- context [if ?c then _ else _] => destruct c
         end; apply append_string_grows.
Qed.

Lemma checked_grows {A : Type} (r : iree_status_t * A) (x : A) :
  IREE_CHECK_OK r = Some x -> x = snd r.
Proof.
  unfold IREE_CHECK_OK. destruct (iree_status_is_ok (fst r)); intros H;
    [now injection H as <-|discriminate].
Qed.

Lemma append_buffer_view_string_grows (view : iree_hal_buffer_view_t)
    (max_element_count : nat) (builder : string) :
  grows builder
    (snd (iree_tooling_append_buffer_view_string view max_element_count
            builder)).
Proof.
  unfold iree_tooling_append_buffer_view_string.
  destruct (iree_hal_buffer_view_format view max_element_count 0 false)
    as [[status required_length] probe_text].
  destruct (iree_status_is_out_of_range status); simpl; [|apply grows_refl].
  destruct (iree_status_is_ok (builder_grow_status builder required_length));
    simpl; [|apply grows_refl].
  destruct builder_gives_buffer; simpl.
  - destruct (iree_hal_buffer_view_format view max_element_count
                (required_length + 1) true) as [[status' n'] text].
    simpl. now exists (stored_in required_length text).
  - now exists (unwritten required_length).
Qed.

Lemma checked_append_string (builder value builder' : string) :
  IREE_CHECK_OK (iree_string_builder_append_string builder value)
    = Some builder' ->
  grows builder builder'.
Proof. intros E. apply append_string_checked in E. now exists value. Qed.

Lemma checked_append_type_string (variant : iree_vm_variant_t)
    (builder builder' : string) :
  IREE_CHECK_OK (iree_vm_append_variant_type_string variant builder)
    = Some builder' ->
  grows builder builder'.
Proof.
  intros E. apply checked_grows in E. subst.
  apply append_variant_type_string_grows.
Qed.

Lemma checked_append_buffer_view_string (view : iree_hal_buffer_view_t)
    (max_element_count : nat) (builder builder' : string) :
  IREE_CHECK_OK (iree_tooling_append_buffer_view_string view
                   max_element_count builder) = Some builder' ->
  grows builder builder'.
Proof.
  intros E. apply checked_grows in E. subst.
  apply append_buffer_view_string_grows.
Qed.

(** One step of a chain of checked appends. *)
Ltac checked_step H :=
  match type of H with
  | bind (IREE_CHECK_OK ?r) _ = Some _ =>
      let b := fresh "b" in
      let E := fresh "E" in
      destruct (IREE_CHECK_OK r) as [b|] eqn:E;
      cbn [bind] in H; [|discriminate H];
      first [ apply checked_append_string in E
            | apply checked_append_type_string in E
            | apply checked_append_buffer_view_string in E ]
  end.

Ltac grows_chain :=
  repeat match goal with
         | G1 : grows ?a ?b, G2 : grows ?b ?c |- _ =>
             pose proof (grows_trans a b c G1 G2); clear G2
         end.

Lemma failure_report_checked (start builder rest : string)
    (r : bool) (builder' : string) :
  bind (IREE_CHECK_OK
          (iree_string_builder_append_format builder (start ++ rest)))
       (fun b => Some (false, b)) = Some (r, builder') ->
  r = false /\ reports start builder builder'.
Proof.
  unfold iree_string_builder_append_format. intros H.
  destruct (IREE_CHECK_OK _) as [b|] eqn:E; cbn [bind] in H;
    [|discriminate H].
  apply append_string_checked in E. injection H as <- <-.
  split; [reflexivity|]. now exists rest.
Qed.

(** ** The comparison functions append a report exactly when they fail *)

Lemma compare_values_shape (result_index : Z)
    (expected_variant actual_variant : iree_vm_variant_t)
    (builder : string) (out : bool * string) :
  iree_tooling_compare_values result_index expected_variant actual_variant
    builder = Some out ->
  outcome_shape result_index builder out.
Proof.
  unfold iree_tooling_compare_values, values_differ.
  destruct (assertions_enabled && _); [discriminate|].
  destruct out as [r b'].
  destruct (value_type (type expected_variant));
    try match goal with
        | |- context [if negb ?c then _ else _] => destruct c; cbn [negb]
        end;
    intros H;
    first [ injection H as <- <-; split; simpl; [reflexivity|discriminate]
          | apply failure_report_checked in H; destruct H as [-> H];
            split; simpl; [discriminate|intros _; exact H] ].
Qed.

Lemma report_types_mismatch_shape (result_index : Z)
    (expected_variant actual_variant : iree_vm_variant_t)
    (builder : string) (out : bool * string) :
  report_types_mismatch result_index expected_variant actual_variant builder
    = Some out ->
  fst out = false /\ reports (failed_result result_index) builder (snd out).
Proof.
  unfold report_types_mismatch, iree_string_builder_append_format.
  intros H.
  destruct (IREE_CHECK_OK (iree_string_builder_append_string builder _))
    as [b0|] eqn:E0; cbn [bind] in H; [|discriminate H].
  apply append_string_checked in E0.
  do 5 checked_step H. injection H as <-. grows_chain.
  split; [reflexivity|]. simpl.
  apply (reports_grows _ builder b0); [|assumption].
  exists "". subst b0. now rewrite string_app_nil_r.
Qed.

Lemma compare_buffer_views_shape (result_index : Z)
    (expected_view actual_view : iree_hal_buffer_view_t)
    (max_element_count : nat) (builder : string) (out : bool * string) :
  iree_tooling_compare_buffer_views result_index expected_view actual_view
    max_element_count builder = Some out ->
  outcome_shape result_index builder out.
Proof.
  unfold iree_tooling_compare_buffer_views,
    iree_string_builder_append_format.
  destruct (iree_hal_buffer_view_match_equal _ expected_view actual_view)
    as [[status subbuilder] did_match].
  destruct (IREE_CHECK_OK (status, (subbuilder, did_match)))
    as [[sub dm]|] eqn:Em; cbn [bind]; [|discriminate].
  destruct dm.
  - intros H. injection H as <-. split; simpl; [reflexivity|discriminate].
  - intros H.
    destruct (IREE_CHECK_OK (iree_string_builder_append_string builder _))
      as [b0|] eqn:E0; cbn [bind] in H; [|discriminate H].
    apply append_string_checked in E0.
    do 6 checked_step H. injection H as <-. grows_chain.
    split; simpl; [discriminate|intros _].
    apply (reports_grows _ builder b0); [|assumption].
    exists "". subst b0. now rewrite string_app_nil_r.
Qed.

Lemma compare_variants_shape (result_index : Z)
    (expected_variant actual_variant : iree_vm_variant_t)
    (max_element_count : nat) (builder : string) (out : bool * string) :
  iree_tooling_compare_variants result_index expected_variant actual_variant
    max_element_count builder = Some out ->
  outcome_shape result_index builder out.
Proof.
  unfold iree_tooling_compare_variants. intros H.
  repeat match type of H with
         | (if ?c then _ else _) = _ => destruct c
         end;
    first [ injection H as <-; split; simpl; [reflexivity|discriminate]
          | apply compare_values_shape in H; exact H
          | apply compare_buffer_views_shape in H; exact H
          | apply report_types_mismatch_shape in H; destruct H as [Hr Hb];
            split; [rewrite Hr; discriminate|intros _; exact Hb] ].
Qed.

Lemma compare_variants_to_stream_shape (result_index : Z)
    (expected_variant actual_variant : iree_vm_variant_t)
    (max_element_count : nat) (os : string) (out : bool * string) :
  iree_tooling_compare_variants_to_stream result_index expected_variant
    actual_variant max_element_count os = Some out ->
  outcome_shape result_index os out
  /\ (fst out = true ->
      iree_tooling_compare_variants result_index expected_variant
        actual_variant max_element_count "" = Some (true, ""))
  /\ grows os (snd out).
Proof.
  unfold iree_tooling_compare_variants_to_stream.
  destruct (iree_tooling_compare_variants _ _ _ _ "") as [[r b]|] eqn:E;
    cbn [bind]; [|discriminate].
  intros H. injection H as <-. unfold outcome_shape. cbn [fst snd].
  destruct (compare_variants_shape _ _ _ _ _ _ E) as [Ht Hf].
  cbn [fst snd] in Ht, Hf.
  split; [split|split].
  - intros ->. rewrite (Ht eq_refl). apply string_app_nil_r.
  - intros ->. destruct (Hf eq_refl) as [rest ->]. now exists rest.
  - intros ->. now rewrite (Ht eq_refl).
  - now exists b.
Qed.

Lemma failed_result_start (result_index : Z) (b b' : string) :
  reports (failed_result result_index) b b' -> reports "[FAILED] " b b'.
Proof.
  intros [rest ->].
  exists ("result[" ++ format_decimal result_index ++ "]: " ++ rest).
  unfold failed_result. now rewrite !string_app_assoc.
Qed.

(** What the loop over the elements returns and writes. *)
Lemma compare_variant_lists_loop_shape
    (expected_list actual_list : list iree_vm_variant_t) (remaining : nat) :
  forall (i : nat) (all_match : bool) (os : string) (r : bool) (os' : string),
  compare_variant_lists_loop expected_list actual_list remaining i all_match
    os = Some (r, os') ->
  grows os os'
  /\ (r = true -> all_match = true /\ os' = os)
  /\ (r = false -> all_match = false \/ reports "[FAILED] " os os').
Proof.
  induction remaining as [|n IH]; intros i all_match os r os' H.
  - simpl in H. injection H as <- <-.
    split; [apply grows_refl|]. split; intros ->; auto.
  - cbn [compare_variant_lists_loop] in H.
    destruct (nth_error expected_list i) as [ev|]; cbn [bind] in H;
      [|discriminate H].
    destruct (nth_error actual_list i) as [av|]; cbn [bind] in H;
      [|discriminate H].
    destruct (iree_tooling_compare_variants_to_stream _ ev av 1024 os)
      as [[dm os1]|] eqn:E; cbn [bind] in H; [|discriminate H].
    destruct (compare_variants_to_stream_shape _ _ _ _ _ _ E)
      as ([Ht Hf] & _ & Hg). cbn [fst snd] in Ht, Hf, Hg.
    destruct (IH _ _ _ _ _ H) as (Hg' & Ht' & Hf').
    split; [exact (grows_trans _ _ _ Hg Hg')|]. split.
    + intros Hr. destruct (Ht' Hr) as [Ham ->].
      destruct dm; cbn [negb] in Ham; [|discriminate Ham].
      split; [exact Ham|]. exact (Ht eq_refl).
    + intros Hr. destruct dm; cbn [negb] in *.
      * rewrite (Ht eq_refl) in *. exact (Hf' Hr).
      * right. apply (failed_result_start (to_int32 (Z.of_nat i))).
        exact (reports_grows _ _ _ _ (Hf eq_refl) Hg').
Qed.

(** X9.  A completed comparison of two lists returns [true] only if it
    wrote nothing to the stream, and [false] only if it appended to the
    stream a text that starts with "[FAILED] ": the stream shows a failure
    exactly when the result is [false]. *)
Theorem compare_variant_lists_reports_iff_failed
    (expected_list actual_list : list iree_vm_variant_t)
    (os : string) (r : bool) (os' : string) :
  iree_tooling_compare_variant_lists expected_list actual_list os
    = Some (r, os') ->
  (r = true -> os' = os)
  /\ (r = false -> exists rest, os' = os ++ "[FAILED] " ++ rest).
Proof.
  unfold iree_tooling_compare_variant_lists.
  destruct (negb (List.length expected_list =? List.length actual_list)%nat).
  - intros H. injection H as <- <-. split; [discriminate|intros _].
    eexists. reflexivity.
  - intros H.
    destruct (compare_variant_lists_loop_shape _ _ _ _ _ _ _ _ H)
      as (_ & Ht & Hf).
    split.
    + intros Hr. now destruct (Ht Hr).
    + intros Hr. destruct (Hf Hr) as [Hc|Hrep]; [discriminate Hc|].
      exact Hrep.
Qed.

(** ** Success of a list comparison, element by element *)

Lemma compare_variant_lists_loop_true
    (expected_list actual_list : list iree_vm_variant_t) (remaining : nat) :
  forall (i : nat) (all_match : bool) (os os' : string),
  compare_variant_lists_loop expected_list actual_list remaining i all_match
    os = Some (true, os') ->
  forall j, (i <= j < i + remaining)%nat ->
  element_matches expected_list actual_list j.
Proof.
  induction remaining as [|n IH]; intros i all_match os os' H j Hj; [lia|].
  cbn [compare_variant_lists_loop] in H.
  destruct (nth_error expected_list i) as [ev|] eqn:Ee; cbn [bind] in H;
    [|discriminate H].
  destruct (nth_error actual_list i) as [av|] eqn:Ea; cbn [bind] in H;
    [|discriminate H].
  destruct (iree_tooling_compare_variants_to_stream _ ev av 1024 os)
    as [[dm os1]|] eqn:E; cbn [bind] in H; [|discriminate H].
  destruct (compare_variant_lists_loop_shape _ _ _ _ _ _ _ _ H)
    as (_ & Ht & _).
  destruct (Ht eq_refl) as [Ham _].
  destruct dm; cbn [negb] in Ham; [|discriminate Ham].
  destruct (Nat.eq_dec j i) as [->|Hne].
  - destruct (compare_variants_to_stream_shape _ _ _ _ _ _ E)
      as (_ & Hm & _).
    exists ev, av. repeat split; auto.
  - apply (IH _ _ _ _ H). lia.
Qed.

Lemma compare_variant_lists_loop_all_match
    (expected_list actual_list : list iree_vm_variant_t) (remaining : nat) :
  forall (i : nat) (all_match : bool) (os : string),
  (forall j, (i <= j < i + remaining)%nat ->
             element_matches expected_list actual_list j) ->
  compare_variant_lists_loop expected_list actual_list remaining i all_match
    os = Some (all_match, os).
Proof.
  induction remaining as [|n IH]; intros i all_match os Hall;
    [reflexivity|].
  cbn [compare_variant_lists_loop].
  destruct (Hall i ltac:(lia)) as (ev & av & -> & -> & Hm). cbn [bind].
  unfold iree_tooling_compare_variants_to_stream. rewrite Hm. cbn [bind negb].
  rewrite string_app_nil_r. apply IH. intros j Hj. apply Hall. lia.
Qed.


(** X11.  An empty expected variant is ignored: when the lists have the
    same length and every expected element is empty, the comparison
    completes with [true] and writes nothing, whatever the actual elements
    are. *)
Theorem compare_variant_lists_ignores_empty_expected
    (expected_list actual_list : list iree_vm_variant_t) (os : string) :
  List.length expected_list = List.length actual_list ->
  (forall expected_variant, In expected_variant expected_list ->
     iree_vm_variant_is_empty expected_variant = true) ->
  iree_tooling_compare_variant_lists expected_list actual_list os
    = Some (true, os).
Proof.
  intros Hlen Hempty. unfold iree_tooling_compare_variant_lists.
  rewrite Hlen, Nat.eqb_refl. cbn [negb]. rewrite <- Hlen.
  apply compare_variant_lists_loop_all_match. intros j Hj.
  destruct (nth_error expected_list j) as [ev|] eqn:Ee;
    [|apply nth_error_None in Ee; lia].
  destruct (nth_error actual_list j) as [av|] eqn:Ea;
    [|apply nth_error_None in Ea; lia].
  exists ev, av. repeat split; auto.
  unfold iree_tooling_compare_variants.
  now rewrite (Hempty ev (nth_error_In _ _ Ee)).
Qed.

(** ** Value variants *)

Lemma value_type_eqb_refl (t : iree_vm_value_type_t) :
  value_type_eqb t t = true.
Proof. destruct t; simpl; auto using Z.eqb_refl. Qed.

(** X12.  Two value variants, the expected one not empty: when their value
    types are equal the payloads are not looked at, the result is [false]
    and the report for that result is appended; when their value types
    differ and assertions are compiled in, the run aborts. *)
Theorem compare_variants_of_values (result_index : Z)
    (expected_variant actual_variant : iree_vm_variant_t)
    (max_element_count : nat) (builder : string) :
  iree_vm_variant_is_empty expected_variant = false ->
  iree_vm_variant_is_value expected_variant = true ->
  iree_vm_variant_is_value actual_variant = true ->
  (value_type (type expected_variant) = value_type (type actual_variant) ->
   iree_tooling_compare_variants result_index expected_variant
     actual_variant max_element_count builder
   = report_types_mismatch result_index expected_variant actual_variant
       builder
   /\ forall out,
        iree_tooling_compare_variants result_index expected_variant
          actual_variant max_element_count builder = Some out ->
        fst out = false
        /\ exists rest,
             snd out = builder ++ failed_result result_index
                         ++ "variant types mismatch; expected " ++ rest)
  /\ (value_type (type expected_variant)
        <> value_type (type actual_variant) ->
      assertions_enabled = true ->
      iree_tooling_compare_variants result_index expected_variant
        actual_variant max_element_count builder = None).
Proof.
  intros He Hve Hva. unfold iree_tooling_compare_variants.
  rewrite He, Hve, Hva, andb_false_r. cbn [andb]. split.
  - intros Ht. rewrite Ht, value_type_eqb_refl. cbn [negb].
    split; [reflexivity|].
    intros [r b'] H. unfold report_types_mismatch in H.
    unfold iree_string_builder_append_format in H.
    destruct (IREE_CHECK_OK (iree_string_builder_append_string builder _))
      as [b0|] eqn:E0; cbn [bind] in H; [|discriminate H].
    apply append_string_checked in E0.
    destruct (IREE_CHECK_OK (iree_string_builder_append_string b0 _))
      as [b1|] eqn:E1; cbn [bind] in H; [|discriminate H].
    apply append_string_checked in E1.
    do 4 checked_step H. injection H as <- <-. grows_chain.
    split; [reflexivity|]. cbn [snd].
    match goal with
    | |- exists _, ?x = _ =>
        match goal with G : grows b1 x |- _ => destruct G as [rest ->] end
    end.
    exists rest. subst b1 b0. now rewrite !string_app_assoc.
  - intros Ht Ha.
    destruct (value_type_eqb (value_type (type expected_variant))
                (value_type (type actual_variant))) eqn:Eq.
    + exfalso. apply Ht.
      destruct (value_type (type expected_variant)),
        (value_type (type actual_variant)); simpl in Eq;
        try discriminate Eq; try reflexivity.
      apply Z.eqb_eq in Eq. now subst.
    + cbn [negb]. unfold iree_tooling_compare_values.
      now rewrite Ha, Eq.
Qed.

Lemma compare_variants_same_type_false (result_index : Z)
    (expected_variant actual_variant : iree_vm_variant_t)
    (max_element_count : nat) (builder : string) (out : bool * string) :
  iree_vm_variant_is_empty expected_variant = false ->
  iree_vm_variant_is_value expected_variant = true ->
  iree_vm_variant_is_value actual_variant = true ->
  value_type (type expected_variant) = value_type (type actual_variant) ->
  iree_tooling_compare_variants result_index expected_variant actual_variant
    max_element_count builder = Some out ->
  fst out = false.
Proof.
  intros He Hve Hva Ht. unfold iree_tooling_compare_variants.
  rewrite He, Hve, Hva, andb_false_r, Ht, value_type_eqb_refl.
  cbn [andb negb]. intros H.
  now destruct (report_types_mismatch_shape _ _ _ _ _ H).
Qed.

(** X13.  A list comparison never returns [true] when some expected element
    is a non-empty value variant and the actual element at the same index is
    a value variant of the same value type, equal payloads included. *)
Theorem compare_variant_lists_same_type_values_fail
    (expected_list actual_list : list iree_vm_variant_t) (i : nat)
    (expected_variant actual_variant : iree_vm_variant_t)
    (os : string) (r : bool) (os' : string) :
  nth_error expected_list i = Some expected_variant ->
  nth_error actual_list i = Some actual_variant ->
  iree_vm_variant_is_empty expected_variant = false ->
  iree_vm_variant_is_value expected_variant = true ->
  iree_vm_variant_is_value actual_variant = true ->
  value_type (type expected_variant) = value_type (type actual_variant) ->
  iree_tooling_compare_variant_lists expected_list actual_list os
    = Some (r, os') ->
  r = false.
Proof.
  intros Ee Ea He Hve Hva Ht H. destruct r; [exfalso|reflexivity].
  unfold iree_tooling_compare_variant_lists in H.
  destruct (negb (List.length expected_list =? List.length actual_list)%nat);
    [discriminate H|].
  assert (Hi : (i < List.length expected_list)%nat)
    by (apply nth_error_Some; congruence).
  destruct (compare_variant_lists_loop_true _ _ _ _ _ _ _ H i ltac:(lia))
    as (ev & av & Ee' & Ea' & Hm).
  rewrite Ee in Ee'. rewrite Ea in Ea'.
  injection Ee' as <-. injection Ea' as <-.
  pose proof (compare_variants_same_type_false _ _ _ _ _ _
                He Hve Hva Ht Hm) as Hfalse.
  discriminate Hfalse.
Qed.

(** ** Printing a buffer view *)

(** X14.  Appending the text of a buffer view: when the probing call of the
    formatter does not answer [out_of_range], its status is returned and the
    builder is left as it was; when it does and the function returns [ok],
    the builder has grown by exactly the number of characters the probe
    announced. *)
Theorem append_buffer_view_string_extent (view : iree_hal_buffer_view_t)
    (max_element_count : nat) (builder : string) :
  let probe := iree_hal_buffer_view_format view max_element_count 0 false in
  let result :=
    iree_tooling_append_buffer_view_string view max_element_count builder in
  (iree_status_is_out_of_range (fst (fst probe)) = false ->
   result = (fst (fst probe), builder))
  /\ (iree_status_is_out_of_range (fst (fst probe)) = true ->
      iree_status_is_ok (fst result) = true ->
      exists text,
        snd result = builder ++ text
        /\ String.length text = snd (fst probe)).
Proof.
  cbv zeta. unfold iree_tooling_append_buffer_view_string.
  destruct (iree_hal_buffer_view_format view max_element_count 0 false)
    as [[status required_length] probe_text]. cbn [fst snd].
  split; intros Hrange; rewrite Hrange; cbn [negb]; [reflexivity|].
  destruct (iree_status_is_ok (builder_grow_status builder required_length))
    eqn:Hgrow; cbn [negb fst].
  - destruct builder_gives_buffer; cbn [negb].
    + destruct (iree_hal_buffer_view_format view max_element_count
                  (required_length + 1) true) as [[status' n'] text].
      cbn [fst snd]. intros _.
      exists (stored_in required_length text).
      split; [reflexivity|apply stored_in_length].
    + cbn [fst snd]. intros _. exists (unwritten required_length).
      split; [reflexivity|apply unwritten_length].
  - intros Hok. rewrite Hgrow in Hok. discriminate Hok.
Qed.

(** ** Payload comparison *)

Lemma SFeqb_true (x y : spec_float) :
  SFeqb x y = true ->
  x <> S754_nan /\ y <> S754_nan /\ SFcompare x y = Some Eq.
Proof.
  intros H.
  assert (E : SFcompare x y = Some Eq).
  { unfold SFeqb in H. destruct (SFcompare x y) as [[| |]|]; congruence. }
  split; [|split; [|exact E]]; intros ->.
  - discriminate E.
  - destruct x; discriminate E.
Qed.

(** X15.  The payload comparison returns [true] only without touching the
    builder and only when the member selected by the expected value type is
    equal in both variants; a floating-point payload that is a NaN, on
    either side, never matches, and neither does an unknown value type. *)
Theorem compare_values_true_only_if_equal (result_index : Z)
    (expected_variant actual_variant : iree_vm_variant_t)
    (builder builder' : string) :
  iree_tooling_compare_values result_index expected_variant actual_variant
    builder = Some (true, builder') ->
  builder' = builder
  /\ selected_payload_equal expected_variant actual_variant.
Proof.
  intros H.
  split; [exact (proj1 (compare_values_shape _ _ _ _ _ H) eq_refl)|].
  revert H. unfold iree_tooling_compare_values, selected_payload_equal.
  destruct (assertions_enabled && _); [discriminate|].
  destruct (value_type (type expected_variant));
    try match goal with
        | |- context [if negb ?c then _ else _] =>
            destruct c eqn:Ec; cbn [negb]
        end;
    intros H;
    try (apply failure_report_checked in H; destruct H as [H _];
         discriminate H);
    first [ now apply Z.eqb_eq | now apply SFeqb_true ].
Qed.

(** ** Completion *)

Section NeverFail.

Hypothesis Hlib : libraries_never_fail.

Lemma append_string_completes (builder value : string) :
  IREE_CHECK_OK (iree_string_builder_append_string builder value)
  = Some (builder ++ value).
Proof.
  destruct Hlib as (_ & Hgrow & _).
  unfold IREE_CHECK_OK, iree_string_builder_append_string.
  now rewrite Hgrow.
Qed.

Lemma append_type_string_completes (variant : iree_vm_variant_t)
    (builder : string) :
  exists builder',
    IREE_CHECK_OK (iree_vm_append_variant_type_string variant builder)
    = Some builder'.
Proof.
  unfold iree_vm_append_variant_type_string,
    iree_string_builder_append_cstring.
  repeat match goal with
         | |- context [if ?c then _ else _] => destruct c
         end; rewrite append_string_completes; eauto.
Qed.

Lemma append_buffer_view_string_completes (view : iree_hal_buffer_view_t)
    (max_element_count : nat) (builder : string) :
  exists builder',
    IREE_CHECK_OK (iree_tooling_append_buffer_view_string view
                     max_element_count builder) = Some builder'.
Proof.
  destruct Hlib as (_ & Hgrow & _ & Hformat).
  specialize (Hformat view max_element_count). cbv zeta in Hformat.
  unfold iree_tooling_append_buffer_view_string.
  destruct (iree_hal_buffer_view_format view max_element_count 0 false)
    as [[status required_length] probe_text]. cbn [fst snd] in Hformat.
  destruct Hformat as [->|[-> Hsecond]]; cbn [iree_status_is_out_of_range negb].
  - eexists. reflexivity.
  - rewrite Hgrow. cbn [iree_status_is_ok negb].
    destruct builder_gives_buffer; cbn [negb].
    + destruct (iree_hal_buffer_view_format view max_element_count
                  (required_length + 1) true) as [[status' n'] text].
      cbn [fst] in Hsecond. subst status'. eexists. reflexivity.
    + eexists. reflexivity.
Qed.

Ltac completes_step :=
  match goal with
  | |- context [IREE_CHECK_OK (iree_string_builder_append_string ?b ?v)] =>
      rewrite (append_string_completes b v); cbn [bind]
  | |- context [IREE_CHECK_OK (iree_vm_append_variant_type_string ?v ?b)] =>
      let b' := fresh "b" in
      let E := fresh "E" in
      destruct (append_type_string_completes v b) as [b' E];
      rewrite E; cbn [bind]
  | |- context [IREE_CHECK_OK
                  (iree_tooling_append_buffer_view_string ?v ?m ?b)] =>
      let b' := fresh "b" in
      let E := fresh "E" in
      destruct (append_buffer_view_string_completes v m b) as [b' E];
      rewrite E; cbn [bind]
  end.

Lemma report_types_mismatch_completes (result_index : Z)
    (expected_variant actual_variant : iree_vm_variant_t)
    (builder : string) :
  exists out,
    report_types_mismatch result_index expected_variant actual_variant
      builder = Some out.
Proof.
  unfold report_types_mismatch, iree_string_builder_append_format.
  repeat completes_step. eauto.
Qed.

Lemma compare_values_completes (result_index : Z)
    (expected_variant actual_variant : iree_vm_variant_t)
    (builder : string) :
  exists out,
    iree_tooling_compare_values result_index expected_variant
      actual_variant builder = Some out.
Proof.
  destruct Hlib as (Hassert & _).
  unfold iree_tooling_compare_values, iree_string_builder_append_format.
  rewrite Hassert. cbn [andb].
  destruct (value_type (type expected_variant));
    try match goal with
        | |- context [if negb ?c then _ else _] => destruct c; cbn [negb]
        end;
    repeat completes_step; eauto.
Qed.

Lemma compare_buffer_views_completes (result_index : Z)
    (expected_view actual_view : iree_hal_buffer_view_t)
    (max_element_count : nat) (builder : string) :
  exists out,
    iree_tooling_compare_buffer_views result_index expected_view
      actual_view max_element_count builder = Some out.
Proof.
  destruct Hlib as (_ & _ & Hmatch & _).
  unfold iree_tooling_compare_buffer_views,
    iree_string_builder_append_format.
  specialize (Hmatch IREE_HAL_BUFFER_EQUALITY_APPROXIMATE_ABSOLUTE
                expected_view actual_view).
  destruct (iree_hal_buffer_view_match_equal _ expected_view actual_view)
    as [[status subbuilder] did_match]. cbn [fst] in Hmatch. subst status.
  unfold IREE_CHECK_OK at 1. cbn [fst snd iree_status_is_ok bind].
  destruct did_match; [eauto|].
  repeat completes_step. eauto.
Qed.

Lemma compare_variants_completes (result_index : Z)
    (expected_variant actual_variant : iree_vm_variant_t)
    (max_element_count : nat) (builder : string) :
  exists out,
    iree_tooling_compare_variants result_index expected_variant
      actual_variant max_element_count builder = Some out.
Proof.
  unfold iree_tooling_compare_variants.
  repeat match goal with
         | |- context [if ?c then _ else _] => destruct c
         end;
    eauto using report_types_mismatch_completes, compare_values_completes,
      compare_buffer_views_completes.
Qed.

Lemma compare_variant_lists_loop_completes
    (expected_list actual_list : list iree_vm_variant_t) (remaining : nat) :
  forall (i : nat) (all_match : bool) (os : string),
  (i + remaining <= List.length expected_list)%nat ->
  (i + remaining <= List.length actual_list)%nat ->
  exists out,
    compare_variant_lists_loop expected_list actual_list remaining i
      all_match os = Some out.
Proof.
  induction remaining as [|n IH]; intros i all_match os He Ha.
  - simpl. eauto.
  - cbn [compare_variant_lists_loop].
    destruct (nth_error expected_list i) as [ev|] eqn:Ee;
      [|apply nth_error_None in Ee; lia].
    destruct (nth_error actual_list i) as [av|] eqn:Ea;
      [|apply nth_error_None in Ea; lia].
    cbn [bind]. unfold iree_tooling_compare_variants_to_stream.
    destruct (compare_variants_completes (to_int32 (Z.of_nat i)) ev av 1024 "")
      as [[dm b] ->]. cbn [bind].
    apply IH; lia.
Qed.

(** X16.  When the libraries never report a failure and assertions are
    compiled out, the comparison of two lists never aborts: it returns a
    result for any two lists and any stream. *)
Theorem compare_variant_lists_completes
    (expected_list actual_list : list iree_vm_variant_t) (os : string) :
  exists out,
    iree_tooling_compare_variant_lists expected_list actual_list os
    = Some out.
Proof.
  unfold iree_tooling_compare_variant_lists.
  destruct (Nat.eqb_spec (List.length expected_list)
              (List.length actual_list)) as [Hlen|Hlen]; cbn [negb].
  - apply compare_variant_lists_loop_completes; lia.
  - eauto.
Qed.

End NeverFail.

End Facts.

(** ** Concrete runs *)

Import ComparisonSamples.

Lemma sample_libraries_never_fail :
  libraries_never_fail (api := sample_api).
Proof.
  unfold libraries_never_fail. split; [reflexivity|].
  split; [reflexivity|]. split; [reflexivity|].
  intros view max_element_count. cbv zeta. right.
  cbv beta iota delta [iree_hal_buffer_view_format sample_api].
  change (String.length view <? 0)%nat with false. cbv iota. cbn [fst snd].
  split; [reflexivity|].
  assert (E : (String.length view <? String.length view + 1)%nat = true)
    by (apply Nat.ltb_lt; lia).
  rewrite E. reflexivity.
Defined.

Lemma compare_variant_lists_reports_iff_failed_witness :
  iree_tooling_compare_variant_lists (api := sample_api)
    [i32_variant 1] [i32_variant 1] ""
  = Some (false,
          "[FAILED] result[0]: variant types mismatch; expected i32 but got i32"
          ++ newline)
  /\ exists rest,
       "[FAILED] result[0]: variant types mismatch; expected i32 but got i32"
       ++ newline = "" ++ "[FAILED] " ++ rest.
Proof.
  assert (H : iree_tooling_compare_variant_lists (api := sample_api)
                [i32_variant 1] [i32_variant 1] ""
              = Some (false,
                      "[FAILED] result[0]: variant types mismatch; expected i32 but got i32"
                      ++ newline)) by reflexivity.
  split; [exact H|].
  exact (proj2 (@compare_variant_lists_reports_iff_failed sample_types
                  sample_api _ _ _ _ _ H) eq_refl).
Defined.

Lemma compare_variant_lists_ignores_empty_expected_witness :
  List.length [empty_variant; empty_variant]
    = List.length [i32_variant 5; buffer_variant "abc"]
  /\ iree_tooling_compare_variant_lists (api := sample_api)
       [empty_variant; empty_variant]
       [i32_variant 5; buffer_variant "abc"] "log:"
     = Some (true, "log:").
Proof.
  split; [reflexivity|].
  apply (@compare_variant_lists_ignores_empty_expected sample_types
           sample_api [empty_variant; empty_variant]
           [i32_variant 5; buffer_variant "abc"] "log:" eq_refl).
  intros v [<-|[<-|[]]]; reflexivity.
Defined.

Lemma compare_variants_of_values_witness :
  iree_tooling_compare_variants (api := sample_api) 3
    (i32_variant 7) (i32_variant 7) 1024 ""
  = Some (false,
          "[FAILED] result[3]: variant types mismatch; expected i32 but got i32"
          ++ newline)
  /\ iree_tooling_compare_variants (api := sample_api_with_assertions) 3
       (i32_variant 7) (i64_variant 7) 1024 "" = None.
Proof.
  split; [reflexivity|].
  apply (proj2 (@compare_variants_of_values sample_types
                  sample_api_with_assertions 3 (i32_variant 7)
                  (i64_variant 7) 1024 "" eq_refl eq_refl eq_refl)).
  - discriminate.
  - reflexivity.
Defined.

Lemma compare_variant_lists_same_type_values_fail_witness :
  nth_error [empty_variant; i32_variant 7] 1 = Some (i32_variant 7)
  /\ iree_tooling_compare_variant_lists (api := sample_api)
       [empty_variant; i32_variant 7] [i32_variant 0; i32_variant 7] ""
     = Some (false,
             "[FAILED] result[1]: variant types mismatch; expected i32 but got i32"
             ++ newline)
  /\ false = false.
Proof.
  split; [reflexivity|]. split; [reflexivity|].
  apply (@compare_variant_lists_same_type_values_fail sample_types sample_api
           [empty_variant; i32_variant 7] [i32_variant 0; i32_variant 7] 1
           (i32_variant 7) (i32_variant 7) "" false
           ("[FAILED] result[1]: variant types mismatch; expected i32 but got i32"
            ++ newline));
    reflexivity.
Defined.

Lemma compare_values_true_only_if_equal_witness :
  iree_tooling_compare_values (api := sample_api) 0
    (i32_variant 7) (i64_variant 7) "" = Some (true, "")
  /\ selected_payload_equal (i32_variant 7) (i64_variant 7).
Proof.
  split; [reflexivity|].
  exact (proj2 (@compare_values_true_only_if_equal sample_types sample_api
                  0 (i32_variant 7) (i64_variant 7) "" "" eq_refl)).
Defined.

Lemma compare_variant_lists_completes_witness :
  libraries_never_fail (api := sample_api)
  /\ exists out,
       iree_tooling_compare_variant_lists (api := sample_api)
         [buffer_variant "abc"; f32_nan_variant]
         [buffer_variant "abd"; f32_nan_variant] "" = Some out.
Proof.
  split; [exact sample_libraries_never_fail|].
  exact (@compare_variant_lists_completes sample_types sample_api
           sample_libraries_never_fail
           [buffer_variant "abc"; f32_nan_variant]
           [buffer_variant "abd"; f32_nan_variant] "").
Defined.

End ComparisonProperties.

(** ** The further theorems at concrete descriptors *)

Lemma using_tile_func_machine_grid_witness :
  (valid_ptr (lhs_buffer widest_tile_params)
   /\ valid_ptr (rhs_buffer widest_tile_params)
   /\ valid_ptr (out_buffer widest_tile_params))
  /\ iree_ukernel_mmt4d_using_tile_func (hdr := spec_header)
       widest_tile_params (Some idle_tile) idle_machine
     = Some (after_calls idle_tile
               (machine_grid (hdr := spec_header) widest_tile_params)
               idle_machine)
  /\ map call_out_tile (machine_grid (hdr := spec_header) widest_tile_params)
     = [2 ^ 40; 2 ^ 40 - 262140].
Proof.
  assert (Hl : valid_ptr (lhs_buffer widest_tile_params))
    by (unfold valid_ptr; cbn; lia).
  assert (Hr : valid_ptr (rhs_buffer widest_tile_params))
    by (unfold valid_ptr; cbn; lia).
  assert (Ho : valid_ptr (out_buffer widest_tile_params))
    by (unfold valid_ptr; cbn; lia).
  split; [auto|]. split; [|vm_compute; reflexivity].
  exact (@using_tile_func_machine_grid unit spec_header widest_tile_params
           idle_tile idle_machine Hl Hr Ho).
Defined.

Lemma run_makes_tile_grid_witness :
  loop_nest_preconditions (hdr := spec_header) sample_params
  /\ iree_ukernel_mmt4d (hdr := spec_header)
       (providers := generic_only_providers (hdr := spec_header) 4096
                       (fun _ => idle_tile))
       sample_params idle_machine
     = Some (iree_ukernel_mmt4d_status_ok,
             {| mem := tt;
                calls := tile_grid (hdr := spec_header) sample_params |}).
Proof.
  split; [exact sample_loop_nest_preconditions|].
  exact (@run_makes_tile_grid unit spec_header
           (generic_only_providers (hdr := spec_header) 4096
              (fun _ => idle_tile))
           sample_params idle_tile idle_machine
           sample_loop_nest_preconditions (flags_within_0 _)
           (or_introl eq_refl) (or_intror (conj eq_refl eq_refl))).
Defined.

Lemma spec_status_code_injective :
  forall s t : iree_ukernel_mmt4d_status_t,
    status_code (Mmt4dHeader := spec_header) s
    = status_code (Mmt4dHeader := spec_header) t -> s = t.
Proof. intros s t; destruct s, t; simpl; intros E; congruence. Defined.

Lemma status_message_identifies_status_witness :
  iree_ukernel_mmt4d_status_message (hdr := spec_header) 0
  = iree_ukernel_mmt4d_status_message (hdr := spec_header) 0
  /\ iree_ukernel_mmt4d_status_ok = iree_ukernel_mmt4d_status_ok.
Proof.
  split; [reflexivity|].
  exact (@status_message_identifies_status spec_header
           spec_status_code_injective
           iree_ukernel_mmt4d_status_ok iree_ukernel_mmt4d_status_ok
           eq_refl).
Defined.
